(** * Telco customer churn: the feature pipeline, embedded and verified

    A shallow embedding of [src/features/build_features.py],
    [src/data/preprocess.py] and of the feature-metadata block of
    [scripts/run_pipeline.py], together with the properties of the
    natural-language specification that concern them.

    The Python code is written against pandas 2.x: text columns have the
    [object] dtype, [astype(str)] turns a missing cell into the text
    ["nan"], and [get_dummies] produces [bool] columns (which is why the
    pipeline script converts [bool] columns to integers afterwards).  The
    pandas operations are modelled here with that behaviour. *)

From Stdlib Require Import Ascii.
From stdpp Require Import gmap strings list pretty.

Local Open Scope Z_scope.
Local Open Scope string_scope.
Local Open Scope list_scope.

(** ** Cells, columns and frames *)

(** A finite [float64].  The development never computes with floats: a cell
    is identified by the decimal [dmant * 10^-dscale] it was read from, which
    is exact for the decimals of at most 15 significant digits (float64 keeps
    those apart); longer decimals, infinities and negative zero are outside
    this model. *)
Record dec := Dec { dmant : Z; dscale : nat }.

(** Trailing zeros of the fraction are dropped, so that a float has one
    representation. *)
Fixpoint normalize (mant : Z) (scale : nat) : dec :=
  match scale with
  | O => Dec mant 0
  | S k => if bool_decide (mant `mod` 10 = 0) then normalize (mant `div` 10) k
           else Dec mant scale
  end.

(** The one representation of the number that [d] denotes: [1.0] written
    [Dec 10 1] and [1.0] written [Dec 1 0] are the same float. *)
Definition canon (d : dec) : dec := normalize (dmant d) (dscale d).

(** A column, by dtype.  The cells of an [object] column are Python [str]
    or NaN, which is what [read_csv] produces for a text column; a missing
    cell is [None] for every dtype that has one. *)
Inductive Series :=
| SObject (l : list (option string))
| SInt (l : list Z)
| SFloat (l : list (option dec))
| SBool (l : list bool)
| SInt64 (l : list (option Z)).

(** A frame is the ordered list of its labelled columns.  Frames that come
    out of [read_csv] have pairwise distinct labels. *)
Abbreviation DataFrame := (list (string * Series)).

(** The untyped view of a cell, as Python code sees it. *)
Inductive value :=
| VStr (s : string)
| VInt (z : Z)
| VFloat (d : dec)
| VBool (b : bool)
| VNA.

Global Instance dec_eq_dec : EqDecision dec.
Proof. solve_decision. Defined.
Global Instance value_eq_dec : EqDecision value.
Proof. solve_decision. Defined.
Global Instance Series_eq_dec : EqDecision Series.
Proof. solve_decision. Defined.

Definition opt_cell {A} (f : A → value) (o : option A) : value :=
  from_option f VNA o.

(** The cells of a column as Python values.  A float is seen through its
    one representation, so that comparing two cells ([unique], [nunique])
    compares numbers and not the way they were written. *)
Definition cells (s : Series) : list value :=
  match s with
  | SObject l => opt_cell VStr <$> l
  | SInt l => VInt <$> l
  | SFloat l => opt_cell (λ d, VFloat (canon d)) <$> l
  | SBool l => VBool <$> l
  | SInt64 l => opt_cell VInt <$> l
  end.

Definition is_object (s : Series) : bool :=
  match s with SObject _ => true | _ => false end.

Definition is_bool (s : Series) : bool :=
  match s with SBool _ => true | _ => false end.

(** [select_dtypes(include=["number"])]: integers (plain and nullable) and
    floats; numpy's [bool] is not a number. *)
Definition is_number (s : Series) : bool :=
  match s with SInt _ | SFloat _ | SInt64 _ => true | _ => false end.

(** [pd.api.types.is_integer_dtype] *)
Definition is_integer_dtype (s : Series) : bool :=
  match s with SInt _ | SInt64 _ => true | _ => false end.

Definition columns (df : DataFrame) : list string := df.*1.

(** [df[c]], for a label that occurs once. *)
Fixpoint getitem (df : DataFrame) (c : string) : option Series :=
  match df with
  | [] => None
  | (n, s) :: rest => if decide (n = c) then Some s else getitem rest c
  end.

(** [df[c] = f(df[c])]: the column labelled [c] is replaced in place. *)
Definition update_col (c : string) (f : Series → Series) (df : DataFrame)
  : DataFrame :=
  (λ e, if decide (e.1 = c) then (e.1, f e.2) else e) <$> df.

(** The loop [for c in cols: df[c] = g(df[c])]. *)
Definition update_each (g : Series → Series) (cols : list string)
    (df : DataFrame) : DataFrame :=
  foldl (λ d c, update_col c g d) df cols.

Definition select_dtypes (incl : Series → bool) (df : DataFrame) : DataFrame :=
  filter (λ e, incl e.2 = true) df.

(** ** Python text of a cell *)

Definition bool_repr (b : bool) : string := if b then "True" else "False".

Fixpoint zeros (n : nat) : string :=
  match n with O => "" | S k => "0" +:+ zeros k end.

(** [repr] of a float held as a decimal: at least one digit on each side of
    the point (["29.85"], ["0.05"], ["1.0"]).  Python switches to exponent
    notation for very large and very small floats; those are not printed
    faithfully here, and no property below depends on them. *)
Definition dec_repr (d : dec) : string :=
  let digits := pretty (Z.abs (dmant d)) in
  let padded := zeros (S (dscale d) - String.length digits) +:+ digits in
  let cut := (String.length padded - dscale d)%nat in
  let frac := String.substring cut (dscale d) padded in
  (if bool_decide (dmant d < 0) then "-" else "")
    +:+ String.substring 0 cut padded +:+ "."
    +:+ (if decide (frac = "") then "0" else frac).

(** [str(v)].  A missing cell of an [object] column is the float NaN, whose
    text is ["nan"]. *)
Definition py_str (v : value) : string :=
  match v with
  | VStr s => s
  | VInt z => pretty z
  | VFloat d => dec_repr d
  | VBool b => bool_repr b
  | VNA => "nan"
  end.

(** ** Series operations *)

Definition isna (v : value) : bool :=
  match v with VNA => true | _ => false end.

(** [s.dropna()], on the cells *)
Definition dropna (l : list value) : list value :=
  filter (λ v, isna v = false) l.

(** [unique()]: distinct values in order of first appearance. *)
Fixpoint unique {A} `{EqDecision A} (l : list A) : list A :=
  match l with
  | [] => []
  | x :: rest => x :: filter (λ y, y ≠ x) (unique rest)
  end.

(** [s.nunique()]: the number of distinct non-missing values. *)
Definition nunique (s : Series) : nat :=
  length (unique (dropna (cells s))).

(** [s.astype(str)] on any column: an [object] column of texts, with no
    missing cell left. *)
Definition astype_str (s : Series) : Series :=
  SObject ((λ v, Some (py_str v)) <$> cells s).

(** [s.map(mapping).astype("Int64")] for a dict with text keys and integer
    values.  A cell that is not a key (a missing cell, any cell that is not a
    [str]) becomes NaN in the intermediate column, which holds floats when
    that happens; [astype("Int64")] reads the integers back and keeps the
    NaN as [<NA>]. *)
Definition map_cell (mapping : gmap string Z) (v : value) : option Z :=
  match v with
  | VStr k => mapping !! k
  | _ => None
  end.

Definition map_Int64 (mapping : gmap string Z) (s : Series) : Series :=
  SInt64 (map_cell mapping <$> cells s).

(** [sorted] on a list of [str]: ascending by code point, which is the
    order of the UTF-8 bytes that [String.leb] compares. *)
Fixpoint insert_sorted (x : string) (l : list string) : list string :=
  match l with
  | [] => [x]
  | y :: rest => if String.leb x y then x :: l else y :: insert_sorted x rest
  end.

Definition sorted (l : list string) : list string :=
  foldr insert_sorted [] l.

(** ** [_map_binary_series]

    [vals] is the list of the distinct non-missing values as texts and
    [valset] the set of them.  The dict literal [{sorted_vals[1]: 1,
    sorted_vals[0]: 0}] is built in that order, so that the second key wins
    when the two are equal.  A column that fits no tier is returned as it
    is. *)

Definition _map_binary_series (s : Series) : Series :=
  let vals := py_str <$> unique (dropna (cells s)) in
  let valset : gset string := list_to_set vals in
  if decide (valset = {[ "Yes"; "No" ]}) then
    map_Int64 (<["No" := 0]> (<["Yes" := 1]> ∅)) s
  else if decide (valset = {[ "Male"; "Female" ]}) then
    map_Int64 (<["Female" := 0]> (<["Male" := 1]> ∅)) s
  else if decide (length vals = 2%nat) then
    let sorted_vals := sorted vals in
    let mapping : gmap string Z :=
      <[sorted_vals !!! 0%nat := 0]> (<[sorted_vals !!! 1%nat := 1]> ∅) in
    map_Int64 mapping s
  else s.

(** ** The steps of [build_features] *)

(** [s.astype("Int64")] for the columns the pipeline casts: [bool] columns
    (step 4) and integer columns (step 6).  pandas raises on text and on
    fractional floats; no call below passes such a column, and the model
    leaves it as it is. *)
Definition astype_Int64 (s : Series) : Series :=
  match s with
  | SBool l => SInt64 ((λ b, Some (Z.b2z b)) <$> l)
  | SInt l => SInt64 (Some <$> l)
  | SInt64 l => SInt64 l
  | _ => s
  end.

(** [s.fillna(0)] on a column of numbers, the only columns the pipeline
    fills.  (A [bool] column has no missing cell; a text column is never
    passed.) *)
Definition fillna0 (s : Series) : Series :=
  match s with
  | SFloat l => SFloat ((λ o, Some (default (Dec 0 0) o)) <$> l)
  | SInt64 l => SInt64 ((λ o, Some (default 0 o)) <$> l)
  | SObject _ | SInt _ | SBool _ => s
  end.

(** Step 1: the [object] columns other than the target. *)
Definition obj_cols (df : DataFrame) (target_col : string) : list string :=
  filter (λ col, col ≠ target_col) (columns (select_dtypes is_object df)).

(** [df[c].nunique()] for a label [c] of [df]. *)
Definition card (df : DataFrame) (c : string) : nat :=
  from_option nunique 0%nat (getitem df c).

(** Step 2: split by cardinality. *)
Definition binary_cols (df : DataFrame) (target_col : string) : list string :=
  filter (λ c, card df c = 2%nat) (obj_cols df target_col).

Definition multi_cat_cols (df : DataFrame) (target_col : string) : list string :=
  filter (λ c, (2 < card df c)%nat) (obj_cols df target_col).

(** Step 3: [for col in binary_cols:
              df[col] = _map_binary_series(df[col].astype(str))] *)
Definition encode_binary (cols : list string) (df : DataFrame) : DataFrame :=
  update_each (λ s, _map_binary_series (astype_str s)) cols df.

(** Step 4: [if bool_cols: df[bool_cols] = df[bool_cols].astype("Int64")] *)
Definition convert_bool (df : DataFrame) : DataFrame :=
  let bool_cols := columns (select_dtypes is_bool df) in
  if decide (bool_cols = []) then df
  else update_each astype_Int64 bool_cols df.

(** Step 5: [pd.get_dummies(df, columns=cols, drop_first=True)].  The levels
    of a text column are its distinct non-missing values in sorted order;
    the first level is dropped, every other level gets a [bool] column
    labelled [<column>_<level>], and a row with a missing cell is [False]
    everywhere.  Only [object] columns are ever listed in [cols]. *)
Definition get_dummies_1d (prefix : string) (s : Series) : DataFrame :=
  match s with
  | SObject l =>
      let levels := sorted (unique (omap id l)) in
      (λ level, (prefix +:+ "_" +:+ level,
                 SBool ((λ o, bool_decide (o = Some level)) <$> l)))
        <$> tail levels
  | _ => []
  end.

Definition get_dummies (df : DataFrame) (cols : list string) : DataFrame :=
  filter (λ e, e.1 ∉ cols) df
  ++ (cols ≫= λ c, from_option (get_dummies_1d c) [] (getitem df c)).

(** Step 6: [for c in binary_cols:
              if is_integer_dtype(df[c]):
                  df[c] = df[c].fillna(0).astype("Int64")] *)
Definition clean_col (s : Series) : Series :=
  if is_integer_dtype s then astype_Int64 (fillna0 s) else s.

Definition clean_dtypes (cols : list string) (df : DataFrame) : DataFrame :=
  update_each clean_col cols df.

(** ** [build_features]

    The function of the frame it is given: the source works on a copy made
    on entry ([df = df.copy()]), which [build_features_st] below makes
    explicit.  The list [numeric_cols] of step 1 is computed and not used,
    and the progress messages are left out. *)

Definition build_features (df : DataFrame) (target_col : string) : DataFrame :=
  let binary_cols := binary_cols df target_col in
  let multi_cat_cols := multi_cat_cols df target_col in
  let df := encode_binary binary_cols df in
  let df := convert_bool df in
  let df := if decide (multi_cat_cols = []) then df
            else get_dummies df multi_cat_cols in
  clean_dtypes binary_cols df.

(** A small frame with a column of each kind. *)
Definition telco_sample : DataFrame :=
  [ ("gender", SObject [Some "Female"; Some "Male"; Some "Female"; Some "Male"]);
    ("Partner", SObject [Some "Yes"; Some "No"; None; Some "No"]);
    ("Contract", SObject [Some "Month-to-month"; Some "One year";
                          Some "Two year"; Some "One year"]);
    ("Paperless", SBool [true; false; true; true]);
    ("tenure", SInt [1; 34; 2; 45]);
    ("Churn", SInt [0; 0; 1; 0]) ].

(** ** What a two-valued encoding looks like

    [code01 hi] is the 0/1 code of a cell when [hi] is the value that gets 1:
    [hi] is 1, every other text is 0, a missing cell stays missing. *)
Definition code01 (hi : string) (o : option string) : option Z :=
  (λ x, if decide (x = hi) then 1 else 0) <$> o.

(** The distinct non-missing values of a text column, as a set. *)
Definition value_set (l : list (option string)) : gset string :=
  list_to_set (omap id l).

(** [int(v)] for the cells that are Python integers; [bool] is a subclass
    of [int], with [True == 1] and [False == 0]. *)
Definition py_int (v : value) : option Z :=
  match v with
  | VInt z => Some z
  | VBool b => Some (Z.b2z b)
  | _ => None
  end.

(** A frame whose Yes/No column has one missing cell. *)
Definition partner_missing : DataFrame :=
  [ ("Partner", SObject [Some "Yes"; Some "No"; None; Some "No"]);
    ("Churn", SInt [1; 0; 1; 0]) ].

(** ** [preprocess_data] *)

(** [str.isspace] on the ASCII range: tab to carriage return, the four
    separators 28 to 31, and the blank. *)
Definition py_isspace (a : ascii) : bool :=
  let n := nat_of_ascii a in
  bool_decide (9 ≤ n ≤ 13 ∨ 28 ≤ n ≤ 32)%nat.

Fixpoint lstrip_ascii (s : string) : string :=
  match s with
  | EmptyString => EmptyString
  | String a rest => if py_isspace a then lstrip_ascii rest else s
  end.

(** The trimming of the numeral reader ([parse_number] below), which knows
    the one-byte whitespace only. *)
Definition strip_ascii (s : string) : string :=
  String.rev (lstrip_ascii (String.rev (lstrip_ascii s))).

(** A Python [str] is a sequence of code points; a [string] here holds its
    UTF-8 bytes.  [utf8_chars] cuts the bytes into characters by the length
    that each lead byte announces (a stray continuation byte or a cut-off
    tail, which no [str] encodes to, is kept as a character of its own). *)
Fixpoint utf8_chars (s : string) : list string :=
  match s with
  | EmptyString => []
  | String a r1 =>
      let n := N_of_ascii a in
      if bool_decide (n < 0xC0)%N then String a "" :: utf8_chars r1
      else if bool_decide (n < 0xE0)%N then
        match r1 with
        | String b r2 => String a (String b "") :: utf8_chars r2
        | _ => [s]
        end
      else if bool_decide (n < 0xF0)%N then
        match r1 with
        | String b (String c r3) =>
            String a (String b (String c "")) :: utf8_chars r3
        | _ => [s]
        end
      else
        match r1 with
        | String b (String c (String d r4)) =>
            String a (String b (String c (String d ""))) :: utf8_chars r4
        | _ => [s]
        end
  end.

(** The UTF-8 bytes of a code point below [0x10000]. *)
Definition utf8_encode (cp : N) : string :=
  String.string_of_list_ascii
    (ascii_of_N <$>
       (if bool_decide (cp < 0x80)%N then [cp]
        else if bool_decide (cp < 0x800)%N
             then [0xC0 + cp `div` 0x40; 0x80 + cp `mod` 0x40]
             else [0xE0 + cp `div` 0x1000; 0x80 + (cp `div` 0x40) `mod` 0x40;
                   0x80 + cp `mod` 0x40])%N).

(** The code points for which [str.isspace] holds (CPython's
    [_PyUnicode_IsWhitespace]). *)
Definition py_whitespace : list N :=
  [ 0x09; 0x0A; 0x0B; 0x0C; 0x0D; 0x1C; 0x1D; 0x1E; 0x1F; 0x20; 0x85; 0xA0;
    0x1680; 0x2000; 0x2001; 0x2002; 0x2003; 0x2004; 0x2005; 0x2006; 0x2007;
    0x2008; 0x2009; 0x200A; 0x2028; 0x2029; 0x202F; 0x205F; 0x3000 ]%N.

Definition is_space_char (c : string) : bool :=
  bool_decide (c ∈ utf8_encode <$> py_whitespace).

Fixpoint lstrip_chars (l : list string) : list string :=
  match l with
  | [] => []
  | c :: rest => if is_space_char c then lstrip_chars rest else l
  end.

(** [str.strip()]: the whitespace characters at both ends are removed, the
    ones of more than one byte ([U+00A0], [U+2003], ...) included. *)
Definition strip (s : string) : string :=
  String.concat ""
    (reverse (lstrip_chars (reverse (lstrip_chars (utf8_chars s))))).

(** A text is blank when it holds nothing but whitespace: [""], [" "], ... *)
Fixpoint blank (s : string) : bool :=
  match s with
  | EmptyString => true
  | String a rest => py_isspace a && blank rest
  end.

(** [df.columns = df.columns.str.strip()] *)
Definition strip_columns (df : DataFrame) : DataFrame :=
  (λ e, (strip e.1, e.2)) <$> df.

(** [df.drop(columns=[col])] for a label that is present. *)
Definition drop_column (col : string) (df : DataFrame) : DataFrame :=
  filter (λ e, e.1 ≠ col) df.

(** [for col in [...]: if col in df.columns: df = df.drop(columns=[col])] *)
Definition drop_id_cols (df : DataFrame) : DataFrame :=
  foldl (λ d col, if decide (col ∈ columns d) then drop_column col d else d)
        df ["customerID"; "CustomerID"; "customer_id"].

(** [s.str.strip()] on a text column; a missing cell stays missing. *)
Definition str_strip (s : Series) : Series :=
  match s with
  | SObject l => SObject ((λ o : option string, strip <$> o) <$> l)
  | _ => s
  end.

(** [s.map(mapping)] for a dict with text keys and integer values: an
    [int64] column when every cell is a key, and otherwise a [float64] column
    in which the cells that are not keys are NaN. *)
Definition s_map (mapping : gmap string Z) (s : Series) : Series :=
  let out := map_cell mapping <$> cells s in
  match mapM id out with
  | Some ints => SInt ints
  | None => SFloat ((λ o : option Z, (λ z, Dec z 0) <$> o) <$> out)
  end.

(** A number read from text. *)
Inductive number :=
| NInt (z : Z)
| NFloat (d : dec).

Definition digit (a : ascii) : option Z :=
  let n := nat_of_ascii a in
  if bool_decide (48 ≤ n ≤ 57)%nat then Some (Z.of_nat (n - 48)) else None.

Fixpoint digits_val (acc : Z) (l : list ascii) : option Z :=
  match l with
  | [] => Some acc
  | a :: rest => d ← digit a; digits_val (10 * acc + d) rest
  end.

Fixpoint split_point (l : list ascii) : list ascii * option (list ascii) :=
  match l with
  | [] => ([], None)
  | a :: rest =>
      if decide (a = "."%char) then ([], Some rest)
      else let '(ip, fp) := split_point rest in (a :: ip, fp)
  end.

(** The numerals that [pd.to_numeric] reads, restricted to plain decimal
    notation: optional surrounding one-byte whitespace, an optional sign,
    digits with
    at most one point and at least one digit.  (pandas also reads exponents,
    [inf] and [nan]; such texts do not occur in the charges columns and are
    outside this model.)  Anything else, a blank text included, is not a
    number. *)
Definition parse_number (text : string) : option number :=
  let body := String.list_ascii_of_string (strip_ascii text) in
  let '(neg, body) :=
    match body with
    | "-"%char :: rest => (true, rest)
    | "+"%char :: rest => (false, rest)
    | _ => (false, body)
    end in
  let sgn (z : Z) := if neg : bool then - z else z in
  match split_point body with
  | (ip, None) =>
      if decide (ip = []) then None else (λ i, NInt (sgn i)) <$> digits_val 0 ip
  | (ip, Some fp) =>
      if decide (ip = [] ∧ fp = []) then None
      else i ← digits_val 0 ip; f ← digits_val 0 fp;
           Some (NFloat (normalize (sgn (i * 10 ^ Z.of_nat (length fp) + f))
                                   (length fp)))
  end.

Definition number_int (n : number) : option Z :=
  match n with NInt z => Some z | NFloat _ => None end.

Definition number_float (n : number) : dec :=
  match n with NInt z => Dec z 0 | NFloat d => d end.

(** [pd.to_numeric(s, errors="coerce")]: a text column is read cell by cell,
    and a cell that is missing or is not a numeral becomes NaN instead of
    raising; the result is [int64] when every cell is an integer and
    [float64] otherwise.  A numeric column is returned as it is. *)
Definition to_numeric_coerce (s : Series) : Series :=
  match s with
  | SObject l =>
      let parsed := (λ o, o ≫= parse_number) <$> l in
      match mapM (λ p, p ≫= number_int) parsed with
      | Some ints => SInt ints
      | None => SFloat ((λ p : option number, number_float <$> p) <$> parsed)
      end
  | _ => s
  end.

Definition in_int64 (z : Z) : bool := bool_decide (- 2 ^ 63 ≤ z < 2 ^ 63).

(** Between the digits of a Python integer literal single underscores may
    stand: ["1_000"], but not ["_1"], ["1_"] or ["1__0"]. *)
Fixpoint underscores_ok (after_digit : bool) (l : list ascii) : bool :=
  match l with
  | [] => after_digit
  | a :: rest =>
      if decide (a = "_"%char) then after_digit && underscores_ok false rest
      else underscores_ok true rest
  end.

(** [int(x)] for a text, base 10: surrounding whitespace is stripped as
    [str.strip] does, then an optional sign and the digits, with single
    underscores allowed between digits.  [None] is [ValueError].  (Digits
    other than [0]..[9], which [int] also reads, are outside this model.) *)
Definition int_of_text (x : string) : option Z :=
  let body := String.list_ascii_of_string (strip x) in
  let '(neg, body) :=
    match body with
    | "-"%char :: rest => (true, rest)
    | "+"%char :: rest => (false, rest)
    | _ => (false, body)
    end in
  if underscores_ok false body
  then (λ z, if neg : bool then - z else z)
         <$> digits_val 0 (filter (λ a, a ≠ "_"%char) body)
  else None.

(** [s.fillna(0).astype("int")], to [int64].  A float is cut towards zero,
    and one beyond the [int64] range becomes the least [int64] (numpy on
    x86-64); an [object] cell goes through [int], which raises ([None]) on a
    text that is not an integer literal or does not fit [int64]. *)
Definition fillna0_astype_int (s : Series) : option Series :=
  match s with
  | SInt l => Some (SInt l)
  | SInt64 l => Some (SInt (default 0 <$> l))
  | SFloat l =>
      Some (SInt ((λ o, from_option
                          (λ d, let z := Z.quot (dmant d)
                                                (10 ^ Z.of_nat (dscale d)) in
                                if in_int64 z then z else - 2 ^ 63) 0 o)
                    <$> l))
  | SBool l => Some (SInt (Z.b2z <$> l))
  | SObject l =>
      SInt <$> mapM (λ o, match o with
                          | None => Some 0
                          | Some x => z ← int_of_text x;
                                      if in_int64 z then Some z else None
                          end) l
  end.

(** [if target_col in df.columns and df[target_col].dtype == "object":
       df[target_col] = df[target_col].str.strip().map({"Yes":1, "No":0})] *)
Definition encode_target (target_col : string) (df : DataFrame) : DataFrame :=
  if decide (target_col ∈ columns df
             ∧ (is_object <$> getitem df target_col) = Some true)
  then update_col target_col
         (λ s, s_map (<["No" := 0]> (<["Yes" := 1]> ∅)) (str_strip s)) df
  else df.

(** [if "TotalCharges" in df.columns:
       df["TotalCharges"] = pd.to_numeric(df["TotalCharges"], errors="coerce")] *)
Definition coerce_total_charges (df : DataFrame) : DataFrame :=
  if decide ("TotalCharges" ∈ columns df)
  then update_col "TotalCharges" to_numeric_coerce df
  else df.

(** [if "SeniorCitizen" in df.columns:
       df["SeniorCitizen"] = df["SeniorCitizen"].fillna(0).astype("int")] *)
Definition cast_senior_citizen (df : DataFrame) : option DataFrame :=
  if decide ("SeniorCitizen" ∈ columns df)
  then s ← getitem df "SeniorCitizen";
       s' ← fillna0_astype_int s;
       Some (update_col "SeniorCitizen" (λ _, s') df)
  else Some df.

(** [num_cols = df.select_dtypes(include=["number"]).columns
     df[num_cols] = df[num_cols].fillna(0)] *)
Definition fill_numeric (df : DataFrame) : DataFrame :=
  let num_cols := columns (select_dtypes is_number df) in
  update_each fillna0 num_cols df.

(** The result of [preprocess_data]; [None] where the Python code raises.
    (The first statement also renames the labels of the caller's frame in
    place; only the returned frame is modelled.) *)
Definition preprocess_data (df : DataFrame) (target_col : string)
  : option DataFrame :=
  let df := strip_columns df in
  let df := drop_id_cols df in
  let df := encode_target target_col df in
  let df := coerce_total_charges df in
  df ← cast_senior_citizen df;
  Some (fill_numeric df).

(** Three raw rows, one of them with a blank [TotalCharges]. *)
Definition raw_sample : DataFrame :=
  [ ("customerID", SObject [Some "7590-VHVEG"; Some "5575-GNVDE"; Some "4472-LVYGI"]);
    ("SeniorCitizen", SInt [0; 1; 0]);
    ("tenure", SInt [1; 34; 0]);
    ("TotalCharges", SObject [Some "29.85"; Some "1889.5"; Some " "]);
    ("Churn", SObject [Some "No"; Some "Yes"; Some "No"]) ].

(** ** The feature-metadata block of [run_pipeline.main] *)

(** [for c in df_enc.select_dtypes(include=["bool"]).columns:
       df_enc[c] = df_enc[c].astype(int)] *)
Definition astype_int_bool (s : Series) : Series :=
  match s with
  | SBool l => SInt (Z.b2z <$> l)
  | _ => s
  end.

Definition bools_to_int (df : DataFrame) : DataFrame :=
  update_each astype_int_bool (columns (select_dtypes is_bool df)) df.

(** [df.drop(columns=[target])], which raises [KeyError] when no column has
    the label. *)
Definition drop_columns (target : string) (df : DataFrame) : option DataFrame :=
  if decide (target ∈ columns df) then Some (drop_column target df) else None.

(** What is persisted: the list [feature_cols], or the dict
    [{"feature_column": feature_cols, "target": target}]. *)
Inductive artifact :=
| FeatureList (feature_cols : list string)
| Preprocessing (feature_column : list string) (target : string).

(** How: [json.dump], the lines joined by a newline, or [joblib.dump]. *)
Inductive format := Json | Lines | Pickle.

(** Where: the local [artifacts] directory, or the MLflow run. *)
Inductive sink := ArtifactsDir | MLflowRun.

Record persisted := Persist {
  p_sink : sink;
  p_name : string;
  p_format : format;
  p_what : artifact
}.

Global Instance artifact_eq_dec : EqDecision artifact.
Proof. solve_decision. Defined.

(** Lines 109 to 126, as the list of writes they perform:
    [json.dump(feature_cols, f)] into [feature_columns.json],
    [mlflow.log_text("\n".join(feature_cols), "feature_columns.txt")],
    [joblib.dump(preprocessing_artifacts, ".../preprocessing.pkl")] and
    [mlflow.log_artifact] of that file. *)
Definition save_feature_metadata (df_enc : DataFrame) (target : string)
  : option (list persisted) :=
  X ← drop_columns target df_enc;
  let feature_cols := columns X in
  let preprocessing_artifacts := Preprocessing feature_cols target in
  Some [ Persist ArtifactsDir "feature_columns.json" Json (FeatureList feature_cols);
         Persist MLflowRun "feature_columns.txt" Lines (FeatureList feature_cols);
         Persist ArtifactsDir "preprocessing.pkl" Pickle preprocessing_artifacts;
         Persist MLflowRun "preprocessing.pkl" Pickle preprocessing_artifacts ].

(** Stage 3 of [main], from the target check to the metadata:
    the run stops ([None]) when the target is not a column. *)
Definition feature_stage (df : DataFrame) (target : string)
  : option (DataFrame * list persisted) :=
  if decide (target ∈ columns df) then
    let df_enc := build_features df target in
    let df_enc := bools_to_int df_enc in
    written ← save_feature_metadata df_enc target;
    Some (df_enc, written)
  else None.

(** ** [build_features] on a store of frames

    A Python variable holds a reference to a frame object, and
    [df[col] = ...] changes the object that every holder of the reference
    sees.  The store maps references to frames; a computation threads the
    store and fails ([None]) on a reference that is not allocated. *)

Abbreviation loc := nat.
Abbreviation heap := (gmap nat (list (string * Series))).

Definition St (A : Type) : Type := heap → option (A * heap).

Global Instance St_ret : MRet St := λ A x h, Some (x, h).
Global Instance St_bind : MBind St := λ A B f m h,
  match m h with
  | Some (x, h') => f x h'
  | None => None
  end.

(** Reading the frame behind a reference. *)
Definition df_read (r : loc) : St DataFrame := λ h,
  d ← h !! r; Some (d, h).

(** A new frame object. *)
Definition df_alloc (d : DataFrame) : St loc := λ h,
  let r := fresh (dom h) in Some (r, <[r := d]> h).

(** [df.copy()]: a new object with the same content. *)
Definition df_copy (r : loc) : St loc :=
  d ← df_read r; df_alloc d.

(** An assignment into the frame behind [r]. *)
Definition df_modify (r : loc) (f : DataFrame → DataFrame) : St unit := λ h,
  d ← h !! r; Some ((), <[r := f d]> h).

Fixpoint for_each {A} (l : list A) (body : A → St unit) : St unit :=
  match l with
  | [] => mret ()
  | x :: rest => body x ≫= λ _, for_each rest body
  end.

(** [build_features] with its argument and its result as references. *)
Definition build_features_st (df : loc) (target_col : string) : St loc :=
  df ← df_copy df;
  d ← df_read df;
  let binary_cols := binary_cols d target_col in
  let multi_cat_cols := multi_cat_cols d target_col in
  for_each binary_cols (λ col,
    df_modify df (update_col col (λ s, _map_binary_series (astype_str s)))) ≫= λ _,
  d ← df_read df;
  let bool_cols := columns (select_dtypes is_bool d) in
  (if decide (bool_cols = []) then mret ()
   else df_modify df (update_each astype_Int64 bool_cols)) ≫= λ _,
  df ← (if decide (multi_cat_cols = []) then mret df
        else d ← df_read df; df_alloc (get_dummies d multi_cat_cols));
  for_each binary_cols (λ c, df_modify df (update_col c clean_col)) ≫= λ _,
  mret df.

(** ** Vocabulary for further properties *)

(** The number of rows of a column. *)
Definition nrows (s : Series) : nat := length (cells s).

(** The labels of the indicator columns that step 5 makes for the column
    [c] of [df]. *)
Definition dummy_labels (df : DataFrame) (c : string) : list string :=
  from_option (λ s, columns (get_dummies_1d c s)) [] (getitem df c).

(** A frame whose text features are complete and have two values or more. *)
Definition complete_sample : DataFrame :=
  [ ("gender", SObject [Some "Female"; Some "Male"; Some "Female"]);
    ("Contract", SObject [Some "Month-to-month"; Some "One year"; Some "Two year"]);
    ("tenure", SInt [1; 34; 2]);
    ("Churn", SInt [0; 0; 1]) ].

(** The 0/1 code of a target cell: the trimmed text ["Yes"] is 1, ["No"] is
    0, and anything else (another text, a missing cell) has no code. *)
Definition yes_no_code (o : option string) : option Z :=
  o ≫= λ x, if decide (strip x = "Yes") then Some 1
             else if decide (strip x = "No") then Some 0 else None.

(** The frame [preprocess_data] works on once the labels are trimmed and
    the id columns dropped. *)
Definition cleaned_labels (df : DataFrame) : DataFrame :=
  drop_id_cols (strip_columns df).

(** A frame whose label and target cells are padded with whitespace, the
    no-break space [U+00A0] included. *)
Definition nbsp : string := utf8_encode 0xA0%N.

Definition padded_target : DataFrame :=
  [ ("Churn" +:+ nbsp, SObject [Some ("Yes" +:+ nbsp); Some " No"]) ].

Definition is_float (s : Series) : bool :=
  match s with SFloat _ => true | _ => false end.

(** What [preprocess_data] makes of [raw_sample]. *)
Definition preprocessed_sample : DataFrame :=
  [ ("SeniorCitizen", SInt [0; 1; 0]);
    ("tenure", SInt [1; 34; 0]);
    ("TotalCharges",
     SFloat [Some (Dec 2985 2); Some (Dec 18895 1); Some (Dec 0 0)]);
    ("Churn", SInt [0; 1; 0]) ].

(** ** [preprocess_data] on a store of frames

    Unlike [build_features], [preprocess_data] makes no copy: its first
    statement assigns to the labels of the frame it was given, and every
    later assignment goes to whatever frame the variable [df] refers to at
    that point: the caller's frame, until a [df.drop] rebinds [df] to a new
    one. *)

(** [raise]: the run stops. *)
Definition raise {A} : St A := λ _, None.

(** [for col in cols: if col in df.columns: df = df.drop(columns=[col])],
    with the reference held by [df] threaded through the loop. *)
Fixpoint drop_loop (cols : list string) (df : loc) : St loc :=
  match cols with
  | [] => mret df
  | col :: rest =>
      d ← df_read df;
      df ← (if decide (col ∈ columns d) then df_alloc (drop_column col d)
            else mret df);
      drop_loop rest df
  end.

Definition preprocess_data_st (df : loc) (target_col : string) : St loc :=
  df_modify df strip_columns ≫= λ _,
  df ← drop_loop ["customerID"; "CustomerID"; "customer_id"] df;
  d ← df_read df;
  (if decide (target_col ∈ columns d
              ∧ (is_object <$> getitem d target_col) = Some true)
   then df_modify df
          (update_col target_col
             (λ s, s_map (<["No" := 0]> (<["Yes" := 1]> ∅)) (str_strip s)))
   else mret ()) ≫= λ _,
  d ← df_read df;
  (if decide ("TotalCharges" ∈ columns d)
   then df_modify df (update_col "TotalCharges" to_numeric_coerce)
   else mret ()) ≫= λ _,
  d ← df_read df;
  (if decide ("SeniorCitizen" ∈ columns d)
   then match getitem d "SeniorCitizen" ≫= fillna0_astype_int with
        | Some s' => df_modify df (update_col "SeniorCitizen" (λ _, s'))
        | None => raise
        end
   else mret ()) ≫= λ _,
  d ← df_read df;
  let num_cols := columns (select_dtypes is_number d) in
  df_modify df (update_each fillna0 num_cols) ≫= λ _,
  mret df.

(** ** Stages 2 and 3 of [run_pipeline.main]

    [df = preprocess_data(df)] is called without a target, so that the
    default ["Churn"] is what gets mapped to 0/1, whatever [args.target] is;
    the feature stage then runs with [args.target].  (The copy of the
    preprocessed frame written to disk in between is left out.) *)
Definition preprocess_and_features (df : DataFrame) (target : string)
  : option (DataFrame * list persisted) :=
  df ← preprocess_data df "Churn";
  feature_stage df target.

(** * Properties *)

(** ** Worked examples *)

Example ex_gender :
  _map_binary_series (SObject [Some "Female"; Some "Male"; Some "Female"])
  = SInt64 [Some 0; Some 1; Some 0].
Proof. vm_compute. reflexivity. Qed.

Example ex_generic :
  _map_binary_series (SObject [Some "b"; None; Some "a"; Some "b"])
  = SInt64 [Some 1; None; Some 0; Some 1].
Proof. vm_compute. reflexivity. Qed.

Example ex_build_features :
  build_features telco_sample "Churn" =
  [ ("gender", SInt64 [Some 0; Some 1; Some 0; Some 1]);
    ("Partner", SObject [Some "Yes"; Some "No"; Some "nan"; Some "No"]);
    ("Paperless", SInt64 [Some 1; Some 0; Some 1; Some 1]);
    ("tenure", SInt [1; 34; 2; 45]);
    ("Churn", SInt [0; 0; 1; 0]);
    ("Contract_One year", SBool [false; true; false; true]);
    ("Contract_Two year", SBool [false; false; true; false]) ].
Proof. vm_compute. reflexivity. Qed.

(** ** [unique], [sorted] and the value list of a text column *)

Section unique.
Context {A : Type} `{EqDecision A}.
Implicit Types l : list A.

Lemma elem_of_unique l x : x ∈ unique l ↔ x ∈ l.
Proof.
  induction l as [|y l IH]; simpl; [done|].
  rewrite !elem_of_cons, list_elem_of_filter, IH.
  destruct (decide (x = y)); tauto.
Qed.

Lemma NoDup_unique l : NoDup (unique l).
Proof.
  induction l as [|y l IH]; simpl; [constructor|].
  constructor; [|by apply NoDup_filter].
  rewrite list_elem_of_filter. intros [Hne _]. by apply Hne.
Qed.
End unique.

Lemma list_to_set_unique `{Countable A} (l : list A) :
  list_to_set (C := gset A) (unique l) = list_to_set l.
Proof.
  apply set_eq. intros x. by rewrite !elem_of_list_to_set, elem_of_unique.
Qed.

Lemma unique_fmap_inj {A B} `{EqDecision A, EqDecision B} (f : A → B) l :
  Inj (=) (=) f → unique (f <$> l) = f <$> unique l.
Proof.
  intros Hf. induction l as [|x l IH]; [done|].
  rewrite fmap_cons. cbn [unique]. rewrite IH, fmap_cons. f_equal.
  generalize (unique l). intros k.
  induction k as [|y k IHk]; [done|].
  rewrite fmap_cons, !filter_cons, IHk.
  destruct (decide (y = x)) as [->|Hne].
  - rewrite (decide_False (P := x ≠ x)) by (intros Hn; by apply Hn).
    rewrite (decide_False (P := f x ≠ f x)) by (intros Hn; by apply Hn).
    done.
  - rewrite (decide_True (P := y ≠ x)) by done.
    rewrite (decide_True (P := f y ≠ f x)) by (intros Hn; by apply Hf in Hn).
    done.
Qed.

Lemma dropna_cells_object (l : list (option string)) :
  dropna (cells (SObject l)) = VStr <$> omap id l.
Proof.
  unfold dropna. simpl. induction l as [|[x|] l IH]; [done|..].
  - rewrite fmap_cons, filter_cons_True by done. simpl. by f_equal.
  - rewrite fmap_cons, filter_cons_False by done. done.
Qed.

(** [vals] of the source, for a text column: the distinct texts. *)
Lemma vals_object (l : list (option string)) :
  py_str <$> unique (dropna (cells (SObject l))) = unique (omap id l).
Proof.
  rewrite dropna_cells_object, unique_fmap_inj by (intros ?? [=]; done).
  rewrite <- list_fmap_compose. apply list_fmap_id.
Qed.

Lemma nunique_object (l : list (option string)) :
  nunique (SObject l) = length (unique (omap id l)).
Proof. unfold nunique. by rewrite <- vals_object, length_fmap. Qed.

Lemma two_values (u : list string) (a b : string) :
  NoDup u → list_to_set (C := gset string) u = {[a; b]} → a ≠ b →
  u = [a; b] ∨ u = [b; a].
Proof.
  intros Hu Hset Hab.
  apply Permutation_length_2_inv.
  apply NoDup_Permutation; [|done|].
  - apply NoDup_cons. split; [|apply NoDup_singleton].
    by intros ->%list_elem_of_singleton.
  - intros x. rewrite <- (elem_of_list_to_set (C := gset string) x u), Hset.
    rewrite elem_of_union, !elem_of_singleton, elem_of_cons, list_elem_of_singleton.
    tauto.
Qed.

Lemma ltb_leb (a b : string) :
  String.ltb a b = true → String.leb a b = true ∧ String.leb b a = false ∧ a ≠ b.
Proof.
  unfold String.ltb, String.leb. intros H.
  destruct (String.compare a b) eqn:E; try discriminate.
  rewrite (String.compare_antisym b a), E. simpl.
  split; [done|]. split; [done|].
  intros ->. pose proof (String.compare_antisym b b) as Hs.
  rewrite E in Hs. discriminate.
Qed.

Lemma sorted_pair (u : list string) (a b : string) :
  String.ltb a b = true → u = [a; b] ∨ u = [b; a] → sorted u = [a; b].
Proof.
  intros Hlt [-> | ->]; apply ltb_leb in Hlt as (H1 & H2 & _); simpl.
  - by rewrite H1.
  - by rewrite H2.
Qed.

(** ** The three tiers of [_map_binary_series] on a text column *)

Lemma valset_object (l : list (option string)) :
  list_to_set (C := gset string) (py_str <$> unique (dropna (cells (SObject l))))
  = value_set l.
Proof. rewrite vals_object. apply list_to_set_unique. Qed.

Lemma value_set_two_vals (l : list (option string)) (a b : string) :
  value_set l = {[a; b]} → a ≠ b →
  unique (omap id l) = [a; b] ∨ unique (omap id l) = [b; a].
Proof.
  intros Hset Hab. apply two_values; [apply NoDup_unique| |done].
  by rewrite list_to_set_unique.
Qed.

(** A dict [{b: 1, a: 0}] applied to a column whose texts are [a] and [b]. *)
Lemma map_Int64_two (l : list (option string)) (a b : string) :
  value_set l = {[a; b]} → a ≠ b →
  map_Int64 (<[a := 0]> (<[b := 1]> ∅)) (SObject l) = SInt64 (code01 b <$> l).
Proof.
  intros Hset Hab. unfold map_Int64. f_equal. simpl.
  rewrite <- list_fmap_compose. apply Forall_fmap_ext, Forall_forall.
  intros [x|] Hx; simpl; [|done].
  assert (x ∈ value_set l) as Hin.
  { apply elem_of_list_to_set, list_elem_of_omap. by exists (Some x). }
  rewrite Hset, elem_of_union, !elem_of_singleton in Hin.
  destruct Hin as [-> | ->].
  - rewrite lookup_insert_eq, decide_False by done. done.
  - rewrite lookup_insert_ne, lookup_insert_eq, decide_True by done. done.
Qed.

Lemma tier_yes_no (l : list (option string)) :
  value_set l = {[ "Yes"; "No" ]} →
  _map_binary_series (SObject l) = SInt64 (code01 "Yes" <$> l).
Proof.
  intros Hset. unfold _map_binary_series. cbv zeta.
  rewrite valset_object, decide_True by done.
  apply map_Int64_two; [|done].
  rewrite Hset. apply (comm_L (∪)).
Qed.

Lemma tier_male_female (l : list (option string)) :
  value_set l = {[ "Male"; "Female" ]} →
  _map_binary_series (SObject l) = SInt64 (code01 "Male" <$> l).
Proof.
  intros Hset. unfold _map_binary_series. cbv zeta.
  rewrite valset_object, Hset.
  rewrite decide_False by (by vm_compute).
  rewrite decide_True by done.
  apply map_Int64_two; [|done].
  rewrite Hset. apply (comm_L (∪)).
Qed.

Lemma tier_generic (l : list (option string)) (a b : string) :
  value_set l = {[a; b]} → String.ltb a b = true →
  ({[a; b]} : gset string) ≠ {[ "Yes"; "No" ]} →
  ({[a; b]} : gset string) ≠ {[ "Male"; "Female" ]} →
  _map_binary_series (SObject l) = SInt64 (code01 b <$> l).
Proof.
  intros Hset Hlt Hyn Hmf.
  pose proof (ltb_leb _ _ Hlt) as (_ & _ & Hab).
  pose proof (value_set_two_vals _ _ _ Hset Hab) as Hu.
  unfold _map_binary_series. cbv zeta.
  rewrite valset_object, Hset, !decide_False by done.
  rewrite vals_object.
  rewrite decide_True by (by destruct Hu as [-> | ->]).
  rewrite (sorted_pair _ a b Hlt Hu). simpl.
  by apply map_Int64_two.
Qed.

(** ** Frames: lookup, in-place update, column lists *)

Section frames.
Implicit Types (df : DataFrame) (c : string) (s : Series) (f : Series → Series).

Lemma columns_update_col c f df : columns (update_col c f df) = columns df.
Proof.
  unfold columns, update_col. rewrite <- list_fmap_compose.
  apply list_fmap_ext. intros i [n s] _. simpl. by destruct (decide (n = c)).
Qed.

Lemma getitem_update_col c f df c' :
  getitem (update_col c f df) c'
  = (if decide (c = c') then f else id) <$> getitem df c'.
Proof.
  induction df as [|[n s] df IH]; simpl; [done|].
  destruct (decide (n = c)) as [->|Hn]; simpl.
  - destruct (decide (c = c')); [done|]. apply IH.
  - destruct (decide (n = c')) as [->|]; [|apply IH].
    by rewrite decide_False by done.
Qed.

Lemma getitem_Some_elem df c s : getitem df c = Some s → (c, s) ∈ df.
Proof.
  induction df as [|[n s'] df IH]; simpl; [done|].
  destruct (decide (n = c)) as [->|].
  - intros [= ->]. apply elem_of_cons. by left.
  - intros H. apply elem_of_cons. right. by apply IH.
Qed.

Lemma getitem_None df c : getitem df c = None ↔ c ∉ columns df.
Proof.
  unfold columns. induction df as [|[n s'] df IH]; simpl.
  - split; [intros _; apply not_elem_of_nil|done].
  - rewrite not_elem_of_cons. destruct (decide (n = c)) as [->|]; [|rewrite IH].
    + split; [done|]. by intros [? _].
    + split; [by split|]. by intros [_ ?].
Qed.

Lemma NoDup_getitem df c s : NoDup (columns df) → (c, s) ∈ df → getitem df c = Some s.
Proof.
  unfold columns. induction df as [|[n s'] df IH]; simpl.
  - by intros _ ?%elem_of_nil.
  - intros [Hn Hnd]%NoDup_cons [[= -> ->] | Hin]%elem_of_cons.
    + by rewrite decide_True.
    + rewrite decide_False; [by apply IH|].
      intros ->. apply Hn. apply list_elem_of_fmap. by exists (c, s).
Qed.

Lemma getitem_app df1 df2 c :
  getitem (df1 ++ df2) c = from_option Some (getitem df2 c) (getitem df1 c).
Proof.
  induction df1 as [|[n s] df1 IH]; simpl; [by destruct (getitem df2 c)|].
  by destruct (decide (n = c)).
Qed.

Lemma getitem_drop_labels (cols : list string) df c :
  c ∉ cols → getitem (filter (λ e, e.1 ∉ cols) df) c = getitem df c.
Proof.
  intros Hc. induction df as [|[n s] df IH]; [done|].
  rewrite filter_cons. simpl. destruct (decide (n = c)) as [->|Hn].
  - rewrite decide_True by done. simpl. by rewrite decide_True.
  - destruct (decide (n ∉ cols)); simpl; [by rewrite decide_False|done].
Qed.

Lemma columns_drop_labels (cols : list string) df c :
  c ∈ columns (filter (λ e, e.1 ∉ cols) df) → c ∉ cols.
Proof.
  unfold columns. rewrite list_elem_of_fmap.
  by intros ([n s] & -> & [Hs _]%list_elem_of_filter).
Qed.

Lemma columns_select_sublist (P : string * Series → Prop) `{∀ x, Decision (P x)} df :
  columns (filter P df) `sublist_of` columns df.
Proof. unfold columns. apply fmap_sublist, sublist_filter. Qed.

Lemma columns_update_each g cols df : columns (update_each g cols df) = columns df.
Proof.
  revert df. induction cols as [|c cols IH]; intros df; simpl; [done|].
  unfold update_each in *. simpl. by rewrite IH, columns_update_col.
Qed.

Lemma getitem_update_each_notin g cols df c :
  c ∉ cols → getitem (update_each g cols df) c = getitem df c.
Proof.
  revert df. induction cols as [|c' cols IH]; intros df Hc; [done|].
  apply not_elem_of_cons in Hc as [Hne Hc]. unfold update_each in *. simpl.
  rewrite IH, getitem_update_col by done. rewrite decide_False by done.
  by destruct (getitem df c).
Qed.

Lemma getitem_update_each_once g cols df c :
  NoDup cols → c ∈ cols → getitem (update_each g cols df) c = g <$> getitem df c.
Proof.
  revert df. induction cols as [|c' cols IH]; intros df Hnd Hc.
  - by apply elem_of_nil in Hc.
  - apply NoDup_cons in Hnd as [Hc' Hnd]. unfold update_each in *. simpl.
    apply elem_of_cons in Hc as [->|Hc].
    + fold (update_each g cols (update_col c' g df)).
      rewrite getitem_update_each_notin, getitem_update_col by done.
      by rewrite decide_True.
    + rewrite IH, getitem_update_col by done.
      rewrite decide_False by (intros ->; done).
      by destruct (getitem df c).
Qed.

(** When [g] is idempotent the loop is a single pass over the frame. *)
Lemma update_each_map g cols df :
  (∀ s, g (g s) = g s) →
  update_each g cols df
  = (λ e, if decide (e.1 ∈ cols) then (e.1, g e.2) else e) <$> df.
Proof.
  intros Hg. revert df. induction cols as [|c cols IH]; intros df.
  - simpl. symmetry. etrans; [|apply list_fmap_id].
    apply list_fmap_ext. intros i e _.
    destruct (decide (e.1 ∈ [])) as [Hin|]; [by apply elem_of_nil in Hin|done].
  - unfold update_each in *. simpl. rewrite IH. unfold update_col.
    rewrite <- list_fmap_compose. apply list_fmap_ext. intros i [n s] _. simpl.
    destruct (decide (n = c)) as [->|Hn]; simpl.
    + rewrite (decide_True (P := c ∈ c :: cols)) by (apply elem_of_cons; by left).
      destruct (decide (c ∈ cols)); by rewrite ?Hg.
    + destruct (decide (n ∈ cols)) as [Hin|Hin].
      * rewrite decide_True by (apply elem_of_cons; by right). done.
      * rewrite decide_False; [done|]. apply not_elem_of_cons. done.
Qed.
End frames.

(** ** Which columns [build_features] touches *)

Section classification.
Implicit Types (df : DataFrame) (c t : string) (s : Series).

Lemma elem_select_columns (incl : Series → bool) df c :
  c ∈ columns (select_dtypes incl df) ↔ ∃ s, (c, s) ∈ df ∧ incl s = true.
Proof.
  unfold columns, select_dtypes. rewrite list_elem_of_fmap. split.
  - intros ([n s] & -> & [Hs Hin]%list_elem_of_filter). by exists s.
  - intros (s & Hin & Hs). exists (c, s). split; [done|].
    by apply list_elem_of_filter.
Qed.

Lemma elem_obj_cols df t c :
  c ∈ obj_cols df t ↔ c ≠ t ∧ ∃ s, (c, s) ∈ df ∧ is_object s = true.
Proof. unfold obj_cols. by rewrite list_elem_of_filter, elem_select_columns. Qed.

Lemma obj_cols_object df t c s :
  NoDup (columns df) → c ∈ obj_cols df t → getitem df c = Some s →
  is_object s = true.
Proof.
  intros Hnd (_ & s' & Hin & Hobj)%elem_obj_cols Hget.
  rewrite (NoDup_getitem _ _ _ Hnd Hin) in Hget. by injection Hget as <-.
Qed.

Lemma binary_cols_obj df t c : c ∈ binary_cols df t → c ∈ obj_cols df t.
Proof. unfold binary_cols. rewrite list_elem_of_filter. tauto. Qed.

Lemma multi_cat_cols_obj df t c : c ∈ multi_cat_cols df t → c ∈ obj_cols df t.
Proof. unfold multi_cat_cols. rewrite list_elem_of_filter. tauto. Qed.

Lemma binary_multi_disjoint df t c :
  c ∈ binary_cols df t → c ∉ multi_cat_cols df t.
Proof.
  unfold binary_cols, multi_cat_cols. rewrite !list_elem_of_filter.
  intros [H2 _] [Hgt _]. lia.
Qed.

Lemma NoDup_select_columns (incl : Series → bool) df :
  NoDup (columns df) → NoDup (columns (select_dtypes incl df)).
Proof. intros Hnd. eapply sublist_NoDup; [done|]. apply columns_select_sublist. Qed.

Lemma columns_convert_bool df : columns (convert_bool df) = columns df.
Proof.
  unfold convert_bool. destruct (decide _); [done|]. apply columns_update_each.
Qed.

(** Step 4 on one column: a [bool] column is cast, any other is kept. *)
Lemma getitem_convert_bool df c s :
  NoDup (columns df) → getitem df c = Some s →
  getitem (convert_bool df) c = Some (if is_bool s then astype_Int64 s else s).
Proof.
  intros Hnd Hget. unfold convert_bool.
  assert (c ∈ columns (select_dtypes is_bool df) ↔ is_bool s = true) as Hc.
  { rewrite elem_select_columns. split.
    - intros (s' & Hin & Hb). rewrite (NoDup_getitem _ _ _ Hnd Hin) in Hget.
      by injection Hget as <-.
    - intros Hb. exists s. split; [by apply getitem_Some_elem|done]. }
  destruct (is_bool s) eqn:Hb.
  - assert (c ∈ columns (select_dtypes is_bool df)) as Hin by by apply Hc.
    destruct (decide _) as [Hnil|_].
    { rewrite Hnil in Hin. by apply elem_of_nil in Hin. }
    rewrite getitem_update_each_once, Hget; [done| |done].
    by apply NoDup_select_columns.
  - assert (c ∉ columns (select_dtypes is_bool df)) as Hin.
    { intros Hin. apply Hc in Hin. done. }
    destruct (decide _); [done|].
    by rewrite getitem_update_each_notin.
Qed.

Lemma getitem_get_dummies_kept df cols c s :
  c ∉ cols → getitem df c = Some s → getitem (get_dummies df cols) c = Some s.
Proof.
  intros Hc Hget. unfold get_dummies.
  rewrite getitem_app, getitem_drop_labels by done.
  by rewrite Hget.
Qed.

(** A column that is neither binary nor multi-category comes out of
    [build_features] as it went in, up to the cast of [bool] columns. *)
Lemma build_features_getitem df t c s :
  NoDup (columns df) → getitem df c = Some s →
  c ∉ binary_cols df t → c ∉ multi_cat_cols df t →
  getitem (build_features df t) c
  = Some (if is_bool s then astype_Int64 s else s).
Proof.
  intros Hnd Hget Hb Hm. unfold build_features, clean_dtypes. cbv zeta.
  rewrite getitem_update_each_notin by done.
  assert (getitem (convert_bool (encode_binary (binary_cols df t) df)) c
          = Some (if is_bool s then astype_Int64 s else s)) as H4.
  { apply getitem_convert_bool.
    - unfold encode_binary. by rewrite columns_update_each.
    - unfold encode_binary. by rewrite getitem_update_each_notin. }
  destruct (decide (multi_cat_cols df t = [])); [done|].
  by apply getitem_get_dummies_kept.
Qed.
End classification.

(** ** The casts of steps 4 and 6 *)

Section casts.
Implicit Types (df : DataFrame) (s : Series).

Lemma astype_Int64_idemp s : astype_Int64 (astype_Int64 s) = astype_Int64 s.
Proof. by destruct s. Qed.

Lemma astype_Int64_not_bool s : is_bool (astype_Int64 s) = false.
Proof. by destruct s. Qed.

Lemma fillna0_Int64 (l : list (option Z)) :
  astype_Int64 (fillna0 (SInt64 l)) = SInt64 ((λ o, Some (default 0 o)) <$> l).
Proof. done. Qed.

Lemma clean_col_idemp s : clean_col (clean_col s) = clean_col s.
Proof.
  destruct s as [l|l|l|l|l]; try done;
    unfold clean_col; simpl; f_equal; rewrite <- list_fmap_compose;
    by apply list_fmap_ext.
Qed.

Lemma clean_col_bool s : is_bool (clean_col s) = is_bool s.
Proof. by destruct s. Qed.

Lemma select_bool_nil df :
  Forall (λ e, is_bool e.2 = false) df → select_dtypes is_bool df = [].
Proof.
  unfold select_dtypes. induction 1 as [|e df He _ IH]; [done|].
  rewrite filter_cons_False; [done|]. by rewrite He.
Qed.

Lemma convert_bool_id df :
  Forall (λ e, is_bool e.2 = false) df → convert_bool df = df.
Proof. intros H. unfold convert_bool. by rewrite select_bool_nil. Qed.

Lemma convert_bool_no_bool df :
  Forall (λ e, is_bool e.2 = false) (convert_bool df).
Proof.
  unfold convert_bool. destruct (decide _) as [Hnil|_].
  - apply Forall_forall. intros [n s] Hin. simpl.
    destruct (is_bool s) eqn:Hb; [|done].
    assert (n ∈ columns (select_dtypes is_bool df)) as Hn.
    { apply elem_select_columns. by exists s. }
    rewrite Hnil in Hn. by apply elem_of_nil in Hn.
  - rewrite update_each_map by apply astype_Int64_idemp.
    apply Forall_fmap, Forall_forall. intros [n s] Hin. simpl.
    destruct (decide _) as [|Hn]; simpl; [apply astype_Int64_not_bool|].
    destruct (is_bool s) eqn:Hb; [|done]. exfalso. apply Hn.
    apply elem_select_columns. by exists s.
Qed.

Lemma clean_dtypes_no_bool cols df :
  Forall (λ e, is_bool e.2 = false) df →
  Forall (λ e, is_bool e.2 = false) (clean_dtypes cols df).
Proof.
  intros H. unfold clean_dtypes. rewrite update_each_map by apply clean_col_idemp.
  apply Forall_fmap. eapply Forall_impl; [done|]. intros [n s] Hs. simpl in *.
  destruct (decide _); simpl; [by rewrite clean_col_bool|done].
Qed.

Lemma clean_dtypes_idemp cols df :
  clean_dtypes cols (clean_dtypes cols df) = clean_dtypes cols df.
Proof.
  unfold clean_dtypes. rewrite !update_each_map by apply clean_col_idemp.
  rewrite <- list_fmap_compose. apply list_fmap_ext. intros i [n s] _. simpl.
  destruct (decide (n ∈ cols)); simpl.
  - by rewrite decide_True, clean_col_idemp.
  - by rewrite decide_False.
Qed.
End casts.

(** C7.  The dtype normalisation of [build_features] is idempotent: casting
    the [bool] columns to [Int64] (step 4), filling and casting the integer
    binary columns (step 6), and the two in sequence, each give the same
    frame when applied twice as when applied once. *)
Theorem dtype_normalization_idempotent (df : DataFrame) (cols : list string) :
  convert_bool (convert_bool df) = convert_bool df
  ∧ clean_dtypes cols (clean_dtypes cols df) = clean_dtypes cols df
  ∧ clean_dtypes cols (convert_bool (clean_dtypes cols (convert_bool df)))
    = clean_dtypes cols (convert_bool df).
Proof.
  split; [|split].
  - apply convert_bool_id, convert_bool_no_bool.
  - apply clean_dtypes_idemp.
  - rewrite (convert_bool_id (clean_dtypes _ _)).
    + apply clean_dtypes_idemp.
    + apply clean_dtypes_no_bool, convert_bool_no_bool.
Qed.

(** ** Binary encoding *)

Lemma value_set_perm (l l' : list (option string)) :
  l' ≡ₚ l → value_set l' = value_set l.
Proof.
  intros Hp. unfold value_set.
  apply (list_to_set_perm_L (C := gset string)). by apply omap_Permutation.
Qed.

(** C1.  A text column whose distinct non-missing values are two texts
    [a < b] (in code-point order) outside the Yes/No and Male/Female tiers is
    encoded with the larger text [b] as 1 and the smaller text [a] as 0; the
    code depends on the value set only: every row permutation of the column,
    and every column with the same value set, is encoded by that same code,
    row by row. *)
Theorem generic_tier_larger_is_one (l : list (option string)) (a b : string) :
  value_set l = {[a; b]} → String.ltb a b = true →
  ({[a; b]} : gset string) ≠ {[ "Yes"; "No" ]} →
  ({[a; b]} : gset string) ≠ {[ "Male"; "Female" ]} →
  code01 b (Some b) = Some 1 ∧ code01 b (Some a) = Some 0
  ∧ (∀ l', l' ≡ₚ l →
       _map_binary_series (SObject l') = SInt64 (code01 b <$> l'))
  ∧ (∀ l', value_set l' = value_set l →
       _map_binary_series (SObject l') = SInt64 (code01 b <$> l')).
Proof.
  intros Hset Hlt Hyn Hmf.
  pose proof (ltb_leb _ _ Hlt) as (_ & _ & Hab).
  split; [|split; [|split]].
  - unfold code01. simpl. by rewrite decide_True.
  - unfold code01. simpl. by rewrite decide_False.
  - intros l' Hp. apply (tier_generic l' a b); [|done..].
    by rewrite (value_set_perm _ _ Hp).
  - intros l' Hl'. apply (tier_generic l' a b); [|done..]. by rewrite Hl'.
Qed.

Lemma generic_tier_larger_is_one_witness :
  code01 "Fiber optic" (Some "Fiber optic") = Some 1
  ∧ code01 "Fiber optic" (Some "DSL") = Some 0
  ∧ (∀ l', l' ≡ₚ [Some "Fiber optic"; None; Some "DSL"; Some "DSL"] →
       _map_binary_series (SObject l') = SInt64 (code01 "Fiber optic" <$> l'))
  ∧ (∀ l', value_set l'
           = value_set [Some "Fiber optic"; None; Some "DSL"; Some "DSL"] →
       _map_binary_series (SObject l') = SInt64 (code01 "Fiber optic" <$> l')).
Proof.
  apply (generic_tier_larger_is_one
           [Some "Fiber optic"; None; Some "DSL"; Some "DSL"] "DSL" "Fiber optic").
  - vm_compute. reflexivity.
  - vm_compute. reflexivity.
  - vm_compute. discriminate.
  - vm_compute. discriminate.
Defined.

(** The encoder compares texts as they are: a Yes/No column written with a
    leading blank falls into the generic tier, where [" Yes"] sorts before
    ["No"] and gets 0.  And the encoder is not idempotent: called again on
    its own result, it finds the integers 1 and 0 where its dict has the
    texts ["1"] and ["0"], and every cell is lost. *)
Lemma yes_no_variant_counterexample :
  _map_binary_series (SObject [Some " Yes"; Some "No"; Some " Yes"])
  = SInt64 [Some 0; Some 1; Some 0]
  ∧ _map_binary_series (SObject [Some "Yes"; Some "No"])
    = SInt64 [Some 1; Some 0]
  ∧ _map_binary_series (_map_binary_series (SObject [Some "Yes"; Some "No"]))
    = SInt64 [None; None].
Proof. vm_compute. done. Qed.

(** C2, as the code has it.  A text column whose distinct non-missing texts
    are exactly ["Yes"] and ["No"] is encoded Yes to 1 and No to 0, whatever
    the order of its rows and the frequency of the two values; and
    [build_features] returns an already encoded column unchanged. *)
Theorem yes_no_exact_tier (l : list (option string)) :
  value_set l = {[ "Yes"; "No" ]} →
  code01 "Yes" (Some "Yes") = Some 1 ∧ code01 "Yes" (Some "No") = Some 0
  ∧ (∀ l', l' ≡ₚ l →
       _map_binary_series (SObject l') = SInt64 (code01 "Yes" <$> l'))
  ∧ (∀ l', value_set l' = value_set l →
       _map_binary_series (SObject l') = SInt64 (code01 "Yes" <$> l'))
  ∧ (∀ df t c, NoDup (columns df) →
       getitem df c = Some (_map_binary_series (SObject l)) →
       getitem (build_features df t) c = Some (_map_binary_series (SObject l))).
Proof.
  intros Hset. split; [done|]. split; [done|]. split; [|split].
  - intros l' Hp. apply tier_yes_no. by rewrite (value_set_perm _ _ Hp).
  - intros l' Hl'. apply tier_yes_no. by rewrite Hl'.
  - intros df t c Hnd Hget. rewrite (tier_yes_no l Hset) in *.
    rewrite (build_features_getitem df t c _ Hnd Hget); [done|..].
    + intros Hc%binary_cols_obj.
      by pose proof (obj_cols_object _ _ _ _ Hnd Hc Hget).
    + intros Hc%multi_cat_cols_obj.
      by pose proof (obj_cols_object _ _ _ _ Hnd Hc Hget).
Qed.

Lemma yes_no_exact_tier_witness :
  code01 "Yes" (Some "Yes") = Some 1 ∧ code01 "Yes" (Some "No") = Some 0
  ∧ (∀ l', l' ≡ₚ [Some "No"; Some "Yes"; None; Some "No"] →
       _map_binary_series (SObject l') = SInt64 (code01 "Yes" <$> l'))
  ∧ (∀ l', value_set l' = value_set [Some "No"; Some "Yes"; None; Some "No"] →
       _map_binary_series (SObject l') = SInt64 (code01 "Yes" <$> l'))
  ∧ (∀ df t c, NoDup (columns df) →
       getitem df c
       = Some (_map_binary_series (SObject [Some "No"; Some "Yes"; None; Some "No"])) →
       getitem (build_features df t) c
       = Some (_map_binary_series (SObject [Some "No"; Some "Yes"; None; Some "No"]))).
Proof.
  apply (yes_no_exact_tier [Some "No"; Some "Yes"; None; Some "No"]).
  vm_compute. reflexivity.
Defined.

(** ** The target column *)

(** A target of [bool] dtype does not come out unchanged: step 4 casts every
    [bool] column, the target included. *)
Lemma bool_target_counterexample :
  let df := [("tenure", SInt [1; 34]); ("Churn", SBool [true; false])] in
  getitem df "Churn" = Some (SBool [true; false])
  ∧ getitem (build_features df "Churn") "Churn" = Some (SInt64 [Some 1; Some 0])
  ∧ getitem (build_features df "Churn") "Churn" ≠ getitem df "Churn".
Proof. vm_compute. repeat split. discriminate. Qed.

(** C6, as the code has it.  The target column is left out of the
    classification (it is neither among the text columns, nor binary, nor
    multi-category, so it is neither encoded nor expanded), and it is found
    in the output unchanged, except that a target of [bool] dtype has been
    cast to [Int64] with the other [bool] columns. *)
Theorem target_never_encoded (df : DataFrame) (t : string) (s : Series) :
  NoDup (columns df) → getitem df t = Some s →
  (t ∉ obj_cols df t) ∧ (t ∉ binary_cols df t) ∧ (t ∉ multi_cat_cols df t)
  ∧ getitem (build_features df t) t
    = Some (if is_bool s then astype_Int64 s else s).
Proof.
  intros Hnd Hget.
  assert (t ∉ obj_cols df t) as Ho.
  { rewrite elem_obj_cols. by intros [? _]. }
  assert (t ∉ binary_cols df t) as Hb by (by intros ?%binary_cols_obj).
  assert (t ∉ multi_cat_cols df t) as Hm by (by intros ?%multi_cat_cols_obj).
  repeat split; try done. by apply build_features_getitem.
Qed.

Lemma target_never_encoded_witness :
  ("Churn" ∉ obj_cols telco_sample "Churn")
  ∧ ("Churn" ∉ binary_cols telco_sample "Churn")
  ∧ ("Churn" ∉ multi_cat_cols telco_sample "Churn")
  ∧ getitem (build_features telco_sample "Churn") "Churn"
    = Some (SInt [0; 0; 1; 0]).
Proof.
  apply (target_never_encoded telco_sample "Churn" (SInt [0; 0; 1; 0])).
  - apply (bool_decide_unpack _). vm_compute. exact I.
  - reflexivity.
Defined.

(** ** Multi-category expansion *)

Section expansion.
Implicit Types (df : DataFrame) (c t : string) (s : Series).

Lemma insert_sorted_perm x (l : list string) : insert_sorted x l ≡ₚ x :: l.
Proof.
  induction l as [|y l IH]; simpl; [done|].
  destruct (String.leb x y); [done|]. rewrite IH. apply Permutation_swap.
Qed.

Lemma sorted_perm (l : list string) : sorted l ≡ₚ l.
Proof.
  induction l as [|x l IH]; simpl; [done|].
  by rewrite insert_sorted_perm, IH.
Qed.

Lemma get_dummies_1d_length c s :
  is_object s = true → length (get_dummies_1d c s) = (nunique s - 1)%nat.
Proof.
  destruct s as [l| | | |]; try done. intros _. simpl.
  by rewrite length_fmap, length_tl, (Permutation_length (sorted_perm _)), nunique_object.
Qed.

Lemma get_dummies_1d_spec c s n ind :
  (n, ind) ∈ get_dummies_1d c s →
  ∃ level, VStr level ∈ cells s ∧ n = c +:+ "_" +:+ level
           ∧ ind = SBool ((λ v, bool_decide (v = VStr level)) <$> cells s).
Proof.
  destruct s as [l| | | |]; simpl; try by intros ?%elem_of_nil.
  intros (level & [= -> ->] & Hlevel)%list_elem_of_fmap. exists level.
  assert (level ∈ omap id l) as Hin.
  { apply elem_of_unique. rewrite <- (sorted_perm (unique _)).
    destruct (sorted _); [by apply elem_of_nil in Hlevel|].
    apply elem_of_cons. by right. }
  apply list_elem_of_omap in Hin as (o & Ho & Hid). simpl in Hid. subst o.
  split; [|split; [done|]].
  - apply list_elem_of_fmap. by exists (Some level).
  - f_equal. rewrite <- list_fmap_compose. apply list_fmap_ext.
    intros i o _. unfold compose, opt_cell.
    destruct o as [x|]; cbn [from_option]; [|done].
    apply bool_decide_ext; split; congruence.
Qed.

Lemma get_dummies_1d_bool c s e : e ∈ get_dummies_1d c s → is_bool e.2 = true.
Proof. destruct e as [n ind]. by intros (? & _ & _ & ->)%get_dummies_1d_spec. Qed.

Lemma columns_drop_labels_eq (cols : list string) df :
  columns (filter (λ e, e.1 ∉ cols) df) = filter (λ n, n ∉ cols) (columns df).
Proof.
  unfold columns. induction df as [|[n s] df IH]; [done|].
  rewrite fmap_cons, !filter_cons. simpl.
  destruct (decide (n ∉ cols)); [by rewrite fmap_cons, IH|done].
Qed.

Lemma clean_dtypes_bool_fixed cols df :
  Forall (λ e, is_bool e.2 = true) df → clean_dtypes cols df = df.
Proof.
  intros H. unfold clean_dtypes. rewrite update_each_map by apply clean_col_idemp.
  etrans; [|apply list_fmap_id]. apply Forall_fmap_ext.
  eapply Forall_impl; [done|]. intros [n s] Hs. simpl in *.
  destruct (decide _); [|done]. by destruct s.
Qed.

Lemma clean_dtypes_app cols df1 df2 :
  clean_dtypes cols (df1 ++ df2) = clean_dtypes cols df1 ++ clean_dtypes cols df2.
Proof.
  unfold clean_dtypes. rewrite !update_each_map by apply clean_col_idemp.
  apply fmap_app.
Qed.

(** The text column of a multi-category label reaches step 5 unchanged. *)
Lemma multi_col_before_dummies df t c s :
  NoDup (columns df) → getitem df c = Some s → c ∈ multi_cat_cols df t →
  getitem (convert_bool (encode_binary (binary_cols df t) df)) c = Some s.
Proof.
  intros Hnd Hget Hc.
  pose proof (obj_cols_object _ _ _ _ Hnd (multi_cat_cols_obj _ _ _ Hc) Hget) as Ho.
  assert (c ∉ binary_cols df t) as Hb.
  { intros Hb. by apply (binary_multi_disjoint df t c). }
  rewrite (getitem_convert_bool _ c s).
  - by destruct s.
  - unfold encode_binary. by rewrite columns_update_each.
  - unfold encode_binary. by rewrite getitem_update_each_notin.
Qed.
End expansion.

(** C5.  A multi-category column [c] with [k > 2] distinct non-missing
    categories is removed and replaced by [k - 1] indicator columns: the
    output is the retained columns (the labels of the input that are not
    multi-category, in order) followed by indicator columns only, among them
    the [k - 1] indicators of [c]; each is labelled [c], ["_"] and one
    category of [c], marks the rows that hold this category, and holds values
    in {0, 1} only (as Python [bool]). *)
Theorem multi_category_expansion (df : DataFrame) (t c : string) (s : Series) :
  NoDup (columns df) → getitem df c = Some s → c ∈ multi_cat_cols df t →
  ∃ kept before after,
    build_features df t = kept ++ before ++ get_dummies_1d c s ++ after
    ∧ columns kept = filter (λ n, n ∉ multi_cat_cols df t) (columns df)
    ∧ Forall (λ e, is_bool e.2 = true) (before ++ after)
    ∧ ((c, s) ∉ build_features df t)
    ∧ (2 < nunique s)%nat
    ∧ length (get_dummies_1d c s) = (nunique s - 1)%nat
    ∧ ∀ n ind, (n, ind) ∈ get_dummies_1d c s →
        (∃ level, VStr level ∈ cells s ∧ n = c +:+ "_" +:+ level
                  ∧ ind = SBool ((λ v, bool_decide (v = VStr level)) <$> cells s))
        ∧ ∀ v, v ∈ cells ind → py_int v = Some 0 ∨ py_int v = Some 1.
Proof.
  intros Hnd Hget Hc.
  pose proof (obj_cols_object _ _ _ _ Hnd (multi_cat_cols_obj _ _ _ Hc) Hget) as Ho.
  pose proof (multi_col_before_dummies _ _ _ _ Hnd Hget Hc) as Hget2.
  set (bc := binary_cols df t) in *. set (mc := multi_cat_cols df t) in *.
  set (df2 := convert_bool (encode_binary bc df)) in *.
  set (f := λ c', from_option (get_dummies_1d c') [] (getitem df2 c')).
  assert (∀ m, Forall (λ e, is_bool e.2 = true) (m ≫= f)) as Hind.
  { intros m. apply Forall_forall. intros e (c' & He & _)%list_elem_of_bind.
    unfold f in He. destruct (getitem df2 c'); simpl in He.
    - by apply get_dummies_1d_bool in He.
    - by apply elem_of_nil in He. }
  destruct (list_elem_of_split _ _ Hc) as (m1 & m2 & Hmc).
  assert (build_features df t
          = clean_dtypes bc (filter (λ e, e.1 ∉ mc) df2) ++ (mc ≫= f)) as Hout.
  { unfold build_features. cbv zeta. fold bc mc df2.
    rewrite decide_False by (rewrite Hmc; by destruct m1).
    unfold get_dummies. fold f.
    by rewrite clean_dtypes_app, (clean_dtypes_bool_fixed _ (mc ≫= f)). }
  assert (columns (clean_dtypes bc (filter (λ e, e.1 ∉ mc) df2))
          = filter (λ n, n ∉ mc) (columns df)) as Hkept.
  { unfold clean_dtypes. rewrite columns_update_each, columns_drop_labels_eq.
    unfold df2, encode_binary. by rewrite columns_convert_bool, columns_update_each. }
  assert (f c = get_dummies_1d c s) as Hfc by (unfold f; by rewrite Hget2).
  exists (clean_dtypes bc (filter (λ e, e.1 ∉ mc) df2)), (m1 ≫= f), (m2 ≫= f).
  split; [|split; [done|split; [|split; [|split; [|split]]]]].
  - by rewrite Hout, Hmc, bind_app, bind_cons, Hfc.
  - rewrite <- bind_app. apply Hind.
  - rewrite Hout. intros [Hin|Hin]%elem_of_app.
    + assert (c ∈ filter (λ n, n ∉ mc) (columns df)) as Hin'.
      { rewrite <- Hkept. apply list_elem_of_fmap. by exists (c, s). }
      apply list_elem_of_filter in Hin' as [Hn _]. by apply Hn.
    + pose proof (Hind mc) as Hb. rewrite Forall_forall in Hb.
      apply Hb in Hin. simpl in Hin. by destruct s.
  - unfold mc, multi_cat_cols in Hc. apply list_elem_of_filter in Hc as [Hk _].
    unfold card in Hk. by rewrite Hget in Hk.
  - by apply get_dummies_1d_length.
  - intros n ind Hin. pose proof (get_dummies_1d_spec _ _ _ _ Hin) as Hs.
    split; [done|]. destruct Hs as (level & _ & _ & ->). simpl.
    intros v (b & -> & _)%list_elem_of_fmap. simpl. destruct b; auto.
Qed.

Lemma multi_category_expansion_witness :
  let s := SObject [Some "Month-to-month"; Some "One year";
                    Some "Two year"; Some "One year"] in
  ∃ kept before after,
    build_features telco_sample "Churn"
    = kept ++ before ++ get_dummies_1d "Contract" s ++ after
    ∧ columns kept
      = filter (λ n, n ∉ multi_cat_cols telco_sample "Churn") (columns telco_sample)
    ∧ Forall (λ e, is_bool e.2 = true) (before ++ after)
    ∧ (("Contract", s) ∉ build_features telco_sample "Churn")
    ∧ (2 < nunique s)%nat
    ∧ length (get_dummies_1d "Contract" s) = (nunique s - 1)%nat
    ∧ ∀ n ind, (n, ind) ∈ get_dummies_1d "Contract" s →
        (∃ level, VStr level ∈ cells s ∧ n = "Contract" +:+ "_" +:+ level
                  ∧ ind = SBool ((λ v, bool_decide (v = VStr level)) <$> cells s))
        ∧ ∀ v, v ∈ cells ind → py_int v = Some 0 ∨ py_int v = Some 1.
Proof.
  apply (multi_category_expansion telco_sample "Churn" "Contract").
  - apply (bool_decide_unpack _). vm_compute. exact I.
  - reflexivity.
  - apply (bool_decide_unpack _). vm_compute. exact I.
Defined.

(** ** Binary columns with a missing cell *)

(** C3, at the failing input.  The column ["Partner"] has two distinct
    non-missing values and one missing cell, so it is classified as binary and
    not as multi-category.  Step 3 turns the missing cell into the text
    ["nan"]; the encoder then sees three values and returns the column
    unmapped.  The output keeps it as text: it is not expanded into
    indicators, and nothing fails. *)
Lemma ambiguous_binary_left_as_text :
  binary_cols partner_missing "Churn" = ["Partner"]
  ∧ multi_cat_cols partner_missing "Churn" = []
  ∧ build_features partner_missing "Churn"
    = [ ("Partner", SObject [Some "Yes"; Some "No"; Some "nan"; Some "No"]);
        ("Churn", SInt [1; 0; 1; 0]) ].
Proof. vm_compute. done. Qed.

(** C4, at the failing input.  The cell in row 2 of the binary column
    ["Partner"] is missing.  Called on the column itself, the encoder keeps
    it missing, in a nullable-integer column; but step 3 calls the encoder on
    the stringified column, and in the output of [build_features] the cell is
    the text ["nan"]: no cell of the column is missing any more. *)
Lemma missing_cell_becomes_nan_text :
  "Partner" ∈ binary_cols partner_missing "Churn"
  ∧ (getitem partner_missing "Partner" ≫= λ s, cells s !! 2%nat) = Some VNA
  ∧ _map_binary_series (SObject [Some "Yes"; Some "No"; None; Some "No"])
    = SInt64 [Some 1; Some 0; None; Some 0]
  ∧ (getitem (build_features partner_missing "Churn") "Partner"
       ≫= λ s, cells s !! 2%nat) = Some (VStr "nan")
  ∧ (cells <$> getitem (build_features partner_missing "Churn") "Partner")
    = Some [VStr "Yes"; VStr "No"; VStr "nan"; VStr "No"].
Proof.
  split; [|by vm_compute].
  apply (bool_decide_unpack _). vm_compute. exact I.
Qed.

Lemma compare_trichotomy (a b : string) :
  a ≠ b → String.ltb a b = true ∨ String.ltb b a = true.
Proof.
  intros Hab. unfold String.ltb. rewrite (String.compare_antisym b a).
  destruct (String.compare a b) eqn:E; simpl; auto.
  by apply String.compare_eq_iff in E.
Qed.

(** Whatever the tier, a text column with two distinct non-missing values is
    encoded cell by cell by some [code01 hi]. *)
Lemma map_binary_two_texts (l : list (option string)) :
  nunique (SObject l) = 2%nat →
  ∃ hi, _map_binary_series (SObject l) = SInt64 (code01 hi <$> l).
Proof.
  rewrite nunique_object. intros Hlen.
  pose proof (NoDup_unique (omap id l)) as Hnd.
  pose proof (list_to_set_unique (omap id l)) as Hset. fold (value_set l) in Hset.
  destruct (unique (omap id l)) as [|a [|b [|]]]; try done.
  assert (a ≠ b) as Hab.
  { apply NoDup_cons in Hnd as [Hn _]. intros ->. apply Hn, elem_of_cons. by left. }
  assert (value_set l = {[a; b]}) as Hv.
  { rewrite <- Hset. simpl. by rewrite (right_id_L ∅ (∪)). }
  destruct (decide (value_set l = {[ "Yes"; "No" ]})) as [Hyn|Hyn].
  { eexists. by apply tier_yes_no. }
  destruct (decide (value_set l = {[ "Male"; "Female" ]})) as [Hmf|Hmf].
  { eexists. by apply tier_male_female. }
  destruct (compare_trichotomy a b Hab) as [Hlt|Hlt].
  - exists b. apply (tier_generic l a b); [done..| |]; by rewrite <- Hv.
  - exists a. assert (value_set l = {[b; a]}) as Hv'.
    { rewrite Hv. apply (comm_L (∪)). }
    apply (tier_generic l b a); [done..| |]; by rewrite <- Hv'.
Qed.

(** *** Binary columns inside [build_features] *)

Lemma NoDup_binary_cols (df : DataFrame) (t : string) :
  NoDup (columns df) → NoDup (binary_cols df t).
Proof.
  intros Hnd. unfold binary_cols, obj_cols.
  by apply NoDup_filter, NoDup_filter, NoDup_select_columns.
Qed.

Lemma encoded_not_bool (s : Series) :
  is_bool (_map_binary_series (astype_str s)) = false.
Proof. unfold _map_binary_series. cbv zeta. by repeat case_decide. Qed.

Lemma astype_str_object (l : list (option string)) :
  astype_str (SObject l) = SObject ((λ o, Some (default "nan" o)) <$> l).
Proof.
  unfold astype_str. simpl. f_equal. rewrite <- list_fmap_compose.
  apply list_fmap_ext. by intros i [x|] _.
Qed.

(** What [build_features] returns for a binary column: the encoder's result
    on the column turned to text, passed through the cleaning of step 6. *)
Lemma binary_column_encoded (df : DataFrame) (t c : string) (s : Series) :
  NoDup (columns df) → c ∈ binary_cols df t → getitem df c = Some s →
  getitem (build_features df t) c
  = Some (clean_col (_map_binary_series (astype_str s))).
Proof.
  intros Hnd Hc Hget. unfold build_features, clean_dtypes. cbv zeta.
  rewrite getitem_update_each_once; [|by apply NoDup_binary_cols|done].
  assert (getitem (convert_bool (encode_binary (binary_cols df t) df)) c
          = Some (_map_binary_series (astype_str s))) as H4.
  { rewrite (getitem_convert_bool _ c (_map_binary_series (astype_str s))).
    - by rewrite encoded_not_bool.
    - unfold encode_binary. by rewrite columns_update_each.
    - unfold encode_binary.
      rewrite getitem_update_each_once, Hget; [done| |done].
      by apply NoDup_binary_cols. }
  destruct (decide _).
  - by rewrite H4.
  - rewrite (getitem_get_dummies_kept _ _ c _ (binary_multi_disjoint _ _ _ Hc) H4).
    done.
Qed.

(** A binary text column without a missing cell is encoded to 0 and 1. *)
Lemma binary_column_complete (df : DataFrame) (t c : string)
    (l : list (option string)) :
  NoDup (columns df) → c ∈ binary_cols df t → getitem df c = Some (SObject l) →
  Forall is_Some l →
  ∃ hi, getitem (build_features df t) c = Some (SInt64 (code01 hi <$> l)).
Proof.
  intros Hnd Hc Hget Hall.
  rewrite (binary_column_encoded df t c _ Hnd Hc Hget), astype_str_object.
  assert ((λ o : option string, Some (default "nan" o)) <$> l = l) as ->.
  { etrans; [|apply list_fmap_id]. apply Forall_fmap_ext.
    eapply Forall_impl; [done|]. by intros o [x ->]. }
  assert (nunique (SObject l) = 2%nat) as Hcard.
  { unfold binary_cols in Hc. apply list_elem_of_filter in Hc as [Hk _].
    unfold card in Hk. by rewrite Hget in Hk. }
  destruct (map_binary_two_texts l Hcard) as (hi & ->). exists hi.
  unfold clean_col. simpl. do 2 f_equal. rewrite <- list_fmap_compose.
  apply Forall_fmap_ext. eapply Forall_impl; [done|]. by intros o [x ->].
Qed.

(** A binary text column with a missing cell (and no text ["nan"] of its
    own) is returned as text, with ["nan"] in the missing cells: the encoder
    sees three values, and the column was not listed for expansion. *)
Lemma binary_column_with_missing (df : DataFrame) (t c : string)
    (l : list (option string)) :
  NoDup (columns df) → c ∈ binary_cols df t → getitem df c = Some (SObject l) →
  None ∈ l → Some "nan" ∉ l →
  (c ∉ multi_cat_cols df t)
  ∧ getitem (build_features df t) c
    = Some (SObject ((λ o, Some (default "nan" o)) <$> l)).
Proof.
  intros Hnd Hc Hget Hnone Hnan. split; [by apply binary_multi_disjoint|].
  rewrite (binary_column_encoded df t c _ Hnd Hc Hget), astype_str_object.
  set (l' := (λ o, Some (default "nan" o)) <$> l).
  assert (nunique (SObject l) = 2%nat) as Hcard.
  { unfold binary_cols in Hc. apply list_elem_of_filter in Hc as [Hk _].
    unfold card in Hk. by rewrite Hget in Hk. }
  rewrite nunique_object in Hcard.
  pose proof (NoDup_unique (omap id l)) as Hu.
  assert (∀ x, x ∈ omap id l' ↔ x = "nan" ∨ x ∈ unique (omap id l)) as Hmem.
  { intros x. rewrite elem_of_unique, !list_elem_of_omap. split.
    - intros (o & [o' [-> Ho']]%list_elem_of_fmap & Hid). simpl in Hid.
      injection Hid as <-. destruct o' as [y|]; simpl; [|by left].
      right. by exists (Some y).
    - intros [-> | (o & Ho & Hid)].
      + exists (Some "nan"). split; [|done]. apply list_elem_of_fmap. by exists None.
      + simpl in Hid. subst o. exists (Some x). split; [|done].
        apply list_elem_of_fmap. by exists (Some x). }
  assert ("nan" ∉ unique (omap id l)) as Hfresh.
  { rewrite elem_of_unique, list_elem_of_omap. intros (o & Ho & Hid).
    simpl in Hid. by subst o. }
  assert (length (unique (omap id l')) = 3%nat) as Hlen.
  { rewrite (Permutation_length
               (l' := "nan" :: unique (omap id l))); [simpl; by rewrite Hcard|].
    apply NoDup_Permutation; [apply NoDup_unique|by apply NoDup_cons|].
    intros x. by rewrite elem_of_unique, Hmem, elem_of_cons. }
  assert ("nan" ∈ value_set l') as Hin.
  { apply elem_of_list_to_set, Hmem. by left. }
  unfold _map_binary_series. cbv zeta.
  rewrite valset_object, vals_object, Hlen.
  rewrite decide_False.
  2:{ intros Heq. rewrite Heq in Hin. by vm_compute in Hin. }
  rewrite decide_False.
  2:{ intros Heq. rewrite Heq in Hin. by vm_compute in Hin. }
  by rewrite decide_False.
Qed.

(** Called on a text column itself, the encoder keeps a missing cell
    missing: with two distinct non-missing values it returns a
    nullable-integer column of the same length in which every missing cell is
    missing and every text is 0 or 1.  ([build_features] never calls it so:
    there the column is stringified first, see [binary_column_with_missing].) *)
Lemma encoder_keeps_missing (l : list (option string)) :
  nunique (SObject l) = 2%nat →
  ∃ out,
    _map_binary_series (SObject l) = SInt64 out
    ∧ length out = length l
    ∧ (∀ i, l !! i = Some None → out !! i = Some None)
    ∧ (∀ i x, l !! i = Some (Some x) →
         out !! i = Some (Some 0) ∨ out !! i = Some (Some 1)).
Proof.
  intros (hi & Hhi)%map_binary_two_texts. exists (code01 hi <$> l).
  split; [done|]. split; [apply length_fmap|]. split.
  - intros i Hi. by rewrite list_lookup_fmap, Hi.
  - intros i x Hi. rewrite list_lookup_fmap, Hi. simpl.
    destruct (decide (x = hi)); auto.
Qed.

(** ** Preprocessing *)

Example ex_preprocess :
  preprocess_data raw_sample "Churn" = Some
  [ ("SeniorCitizen", SInt [0; 1; 0]);
    ("tenure", SInt [1; 34; 0]);
    ("TotalCharges", SFloat [Some (Dec 2985 2); Some (Dec 18895 1); Some (Dec 0 0)]);
    ("Churn", SInt [0; 1; 0]) ].
Proof. vm_compute. reflexivity. Qed.

Lemma lstrip_ascii_blank (x : string) : blank x = true → lstrip_ascii x = "".
Proof.
  induction x as [|a x IH]; simpl; [done|].
  intros [Ha Hx]%andb_prop. rewrite Ha. by apply IH.
Qed.

Lemma strip_ascii_blank (x : string) : blank x = true → strip_ascii x = "".
Proof. intros Hx. unfold strip_ascii. rewrite (lstrip_ascii_blank x Hx). reflexivity. Qed.

(** A blank text is not a numeral. *)
Lemma parse_number_blank (x : string) : blank x = true → parse_number x = None.
Proof. intros Hx. unfold parse_number. by rewrite strip_ascii_blank. Qed.

(** [to_numeric] turns a blank cell into NaN, in a [float64] column. *)
Lemma to_numeric_blank_cell (l : list (option string)) (i : nat) (x : string) :
  l !! i = Some (Some x) → blank x = true →
  ∃ l', to_numeric_coerce (SObject l) = SFloat l' ∧ l' !! i = Some None.
Proof.
  intros Hi Hx. unfold to_numeric_coerce.
  set (parsed := (λ o, o ≫= parse_number) <$> l).
  assert (parsed !! i = Some None) as Hp.
  { unfold parsed. rewrite list_lookup_fmap, Hi. simpl. by rewrite parse_number_blank. }
  rewrite (mapM_None_2 _ parsed).
  - eexists. split; [done|]. by rewrite list_lookup_fmap, Hp.
  - apply Exists_exists. exists None. split; [|done].
    by apply list_elem_of_lookup_2 in Hp.
Qed.

(** The blank cell of [TotalCharges] is not missing in the output of
    [preprocess_data]: the numeric fill has made it 0. *)
Lemma blank_total_charges_counterexample :
  (getitem raw_sample "TotalCharges" ≫= λ s, cells s !! 2%nat) = Some (VStr " ")
  ∧ ∃ df', preprocess_data raw_sample "Churn" = Some df'
           ∧ (getitem df' "TotalCharges" ≫= λ s, cells s !! 2%nat)
             = Some (VFloat (Dec 0 0)).
Proof. split; [done|]. eexists. split; [by vm_compute|done]. Qed.

Section preprocess.
Implicit Types (df : DataFrame) (t : string).

Lemma getitem_encode_target_other t df c :
  t ≠ c → getitem (encode_target t df) c = getitem df c.
Proof.
  intros Hne. unfold encode_target. destruct (decide _); [|done].
  rewrite getitem_update_col, decide_False by done. by destruct (getitem df c).
Qed.

Lemma columns_encode_target t df : columns (encode_target t df) = columns df.
Proof. unfold encode_target. destruct (decide _); [|done]. apply columns_update_col. Qed.

Lemma columns_coerce_total_charges df :
  columns (coerce_total_charges df) = columns df.
Proof.
  unfold coerce_total_charges. destruct (decide _); [|done]. apply columns_update_col.
Qed.

Lemma getitem_coerce_total_charges df s :
  getitem df "TotalCharges" = Some s →
  getitem (coerce_total_charges df) "TotalCharges" = Some (to_numeric_coerce s).
Proof.
  intros Hget. unfold coerce_total_charges.
  rewrite decide_True.
  - by rewrite getitem_update_col, decide_True, Hget.
  - apply getitem_Some_elem in Hget. apply list_elem_of_fmap. by exists ("TotalCharges", s).
Qed.

Lemma getitem_coerce_total_charges_other df c :
  c ≠ "TotalCharges" → getitem (coerce_total_charges df) c = getitem df c.
Proof.
  intros Hne. unfold coerce_total_charges. destruct (decide _); [|done].
  rewrite getitem_update_col, decide_False by done. by destruct (getitem df c).
Qed.

Lemma cast_senior_citizen_Some df :
  (∀ s, getitem df "SeniorCitizen" = Some s → is_Some (fillna0_astype_int s)) →
  ∃ df', cast_senior_citizen df = Some df'
         ∧ columns df' = columns df
         ∧ getitem df' "TotalCharges" = getitem df "TotalCharges".
Proof.
  intros Hs. unfold cast_senior_citizen. destruct (decide _) as [Hin|]; [|by eexists].
  destruct (getitem df "SeniorCitizen") as [s|] eqn:Hget.
  - destruct (Hs s eq_refl) as [s' Hs']. simpl. rewrite Hs'. simpl.
    eexists. split; [done|]. split; [apply columns_update_col|].
    rewrite getitem_update_col, decide_False by done.
    by destruct (getitem df "TotalCharges").
  - by apply getitem_None in Hget.
Qed.

Lemma getitem_fill_numeric df c s :
  NoDup (columns df) → getitem df c = Some s → is_number s = true →
  getitem (fill_numeric df) c = Some (fillna0 s).
Proof.
  intros Hnd Hget Hnum. unfold fill_numeric.
  rewrite getitem_update_each_once, Hget; [done| |].
  - by apply NoDup_select_columns.
  - apply elem_select_columns. exists s. split; [by apply getitem_Some_elem|done].
Qed.
End preprocess.

(** C8, as the code has it.  A blank text in [TotalCharges] is read by
    [to_numeric] as a missing number, without any failure; the numeric fill
    that ends [preprocess_data] then replaces it, so the cell is [0.0] in the
    preprocessed output.  (The labels are taken after trimming and after the
    id columns are dropped; the only step of [preprocess_data] that can raise
    is the integer cast of [SeniorCitizen].) *)
Theorem blank_total_charges_becomes_zero
    (df : DataFrame) (t : string) (l : list (option string)) (i : nat) (x : string) :
  let df0 := drop_id_cols (strip_columns df) in
  NoDup (columns df0) →
  getitem df0 "TotalCharges" = Some (SObject l) →
  t ≠ "TotalCharges" → t ≠ "SeniorCitizen" →
  (∀ s, getitem df0 "SeniorCitizen" = Some s → is_Some (fillna0_astype_int s)) →
  l !! i = Some (Some x) → blank x = true →
  cells (to_numeric_coerce (SObject l)) !! i = Some VNA
  ∧ ∃ df', preprocess_data df t = Some df'
           ∧ (getitem df' "TotalCharges" ≫= λ s, cells s !! i)
             = Some (VFloat (Dec 0 0)).
Proof.
  intros df0 Hnd Hget Ht1 Ht2 Hsenior Hi Hx.
  destruct (to_numeric_blank_cell l i x Hi Hx) as (l' & Hnum & Hl').
  split.
  { rewrite Hnum. simpl. by rewrite list_lookup_fmap, Hl'. }
  unfold preprocess_data. cbv zeta. fold df0.
  set (df2 := coerce_total_charges (encode_target t df0)).
  assert (getitem df2 "TotalCharges" = Some (SFloat l')) as Hget2.
  { unfold df2. rewrite <- Hnum. apply getitem_coerce_total_charges.
    by rewrite getitem_encode_target_other. }
  assert (columns df2 = columns df0) as Hcols.
  { unfold df2. by rewrite columns_coerce_total_charges, columns_encode_target. }
  destruct (cast_senior_citizen_Some df2) as (df3 & Hcast & Hcols3 & Hget3).
  { intros s Hs. apply Hsenior. unfold df2 in Hs.
    rewrite getitem_coerce_total_charges_other in Hs by done.
    by rewrite getitem_encode_target_other in Hs. }
  rewrite Hcast. simpl. eexists. split; [done|].
  rewrite (getitem_fill_numeric df3 "TotalCharges" (SFloat l')); [|congruence..|done].
  simpl. by rewrite !list_lookup_fmap, Hl'.
Qed.

Lemma blank_total_charges_becomes_zero_witness :
  cells (to_numeric_coerce (SObject [Some "29.85"; Some "1889.5"; Some " "])) !! 2%nat
  = Some VNA
  ∧ ∃ df', preprocess_data raw_sample "Churn" = Some df'
           ∧ (getitem df' "TotalCharges" ≫= λ s, cells s !! 2%nat)
             = Some (VFloat (Dec 0 0)).
Proof.
  apply (blank_total_charges_becomes_zero raw_sample "Churn"
           [Some "29.85"; Some "1889.5"; Some " "] 2 " ").
  - apply (bool_decide_unpack _). vm_compute. exact I.
  - reflexivity.
  - discriminate.
  - discriminate.
  - intros s Hs. vm_compute in Hs. injection Hs as <-. vm_compute. eauto.
  - reflexivity.
  - reflexivity.
Defined.

(** ** The persisted feature contract *)

Section contract.
Implicit Types (df : DataFrame) (t c : string).

Lemma columns_get_dummies_kept df cols c :
  c ∈ columns df → c ∉ cols → c ∈ columns (get_dummies df cols).
Proof.
  intros Hc Hn. unfold get_dummies, columns. rewrite fmap_app, elem_of_app. left.
  fold (columns (filter (λ e, e.1 ∉ cols) df)).
  rewrite columns_drop_labels_eq. by apply list_elem_of_filter.
Qed.

(** A label that is not multi-category is still a label of the output. *)
Lemma columns_build_features_kept df t c :
  c ∈ columns df → c ∉ multi_cat_cols df t → c ∈ columns (build_features df t).
Proof.
  intros Hc Hn. unfold build_features, clean_dtypes. cbv zeta.
  rewrite columns_update_each.
  assert (c ∈ columns (convert_bool (encode_binary (binary_cols df t) df))) as Hc2.
  { unfold encode_binary. by rewrite columns_convert_bool, columns_update_each. }
  destruct (decide _); [done|]. by apply columns_get_dummies_kept.
Qed.

Lemma columns_bools_to_int df : columns (bools_to_int df) = columns df.
Proof. apply columns_update_each. Qed.

Lemma columns_drop_column c df :
  columns (drop_column c df) = filter (λ n, n ≠ c) (columns df).
Proof.
  unfold columns, drop_column. induction df as [|[n s] df IH]; [done|].
  rewrite fmap_cons, !filter_cons. simpl.
  destruct (decide (n ≠ c)); [by rewrite fmap_cons, IH|done].
Qed.
End contract.

Lemma unique_twice_each {A} `{EqDecision A} (a b : A) :
  a ≠ b → unique [a; a; b; b] = [a; b].
Proof.
  intros Hab. cbn.
  repeat (destruct (decide _); cbn). all: try congruence. all: done.
Qed.

(** C9.  When the target is a column of the preprocessed frame, the
    metadata block runs to its end and persists exactly two things: the
    feature list, which is the labels of the encoded frame without the target
    and in their order, written as JSON and as plain lines; and the record of
    the feature list and the target name, pickled and logged. *)
Theorem feature_contract_persisted (df : DataFrame) (target : string) :
  target ∈ columns df →
  ∃ df_enc written,
    feature_stage df target = Some (df_enc, written)
    ∧ columns df_enc = columns (build_features df target)
    ∧ let feature_cols := filter (λ n, n ≠ target) (columns df_enc) in
      written
      = [ Persist ArtifactsDir "feature_columns.json" Json (FeatureList feature_cols);
          Persist MLflowRun "feature_columns.txt" Lines (FeatureList feature_cols);
          Persist ArtifactsDir "preprocessing.pkl" Pickle
            (Preprocessing feature_cols target);
          Persist MLflowRun "preprocessing.pkl" Pickle
            (Preprocessing feature_cols target) ]
      ∧ unique (p_what <$> written)
        = [ FeatureList feature_cols; Preprocessing feature_cols target ].
Proof.
  intros Ht. unfold feature_stage. rewrite decide_True by done. cbv zeta.
  set (df_enc := bools_to_int (build_features df target)).
  assert (target ∈ columns df_enc) as Henc.
  { unfold df_enc. rewrite columns_bools_to_int.
    apply columns_build_features_kept; [done|].
    intros Hm%multi_cat_cols_obj%elem_obj_cols. by destruct Hm. }
  unfold save_feature_metadata, drop_columns. rewrite decide_True by done. simpl.
  eexists _, _. split; [done|]. split; [apply columns_bools_to_int|].
  rewrite columns_drop_column. split; [done|].
  by apply unique_twice_each.
Qed.

Lemma feature_contract_persisted_witness :
  ∃ df_enc written,
    feature_stage telco_sample "Churn" = Some (df_enc, written)
    ∧ columns df_enc = columns (build_features telco_sample "Churn")
    ∧ let feature_cols := filter (λ n, n ≠ "Churn") (columns df_enc) in
      written
      = [ Persist ArtifactsDir "feature_columns.json" Json (FeatureList feature_cols);
          Persist MLflowRun "feature_columns.txt" Lines (FeatureList feature_cols);
          Persist ArtifactsDir "preprocessing.pkl" Pickle
            (Preprocessing feature_cols "Churn");
          Persist MLflowRun "preprocessing.pkl" Pickle
            (Preprocessing feature_cols "Churn") ]
      ∧ unique (p_what <$> written)
        = [ FeatureList feature_cols; Preprocessing feature_cols "Churn" ].
Proof.
  apply (feature_contract_persisted telco_sample "Churn").
  apply (bool_decide_unpack _). vm_compute. exact I.
Defined.

Example ex_feature_cols :
  snd <$> feature_stage telco_sample "Churn" = Some
  (let feature_cols := [ "gender"; "Partner"; "Paperless"; "tenure";
                         "Contract_One year"; "Contract_Two year" ] in
   [ Persist ArtifactsDir "feature_columns.json" Json (FeatureList feature_cols);
     Persist MLflowRun "feature_columns.txt" Lines (FeatureList feature_cols);
     Persist ArtifactsDir "preprocessing.pkl" Pickle (Preprocessing feature_cols "Churn");
     Persist MLflowRun "preprocessing.pkl" Pickle (Preprocessing feature_cols "Churn") ]).
Proof. vm_compute. reflexivity. Qed.

(** ** [build_features] does not touch the caller's frame *)

Section store.
Implicit Types (h : heap) (r : loc) (d : DataFrame).

Lemma bind_run {A B} (m : St A) (k : A → St B) h x h' :
  m h = Some (x, h') → (m ≫= k) h = k x h'.
Proof. intros Hm. unfold mbind, St_bind. by rewrite Hm. Qed.

Lemma df_read_run h r d : h !! r = Some d → df_read r h = Some (d, h).
Proof. intros Hr. unfold df_read. by rewrite Hr. Qed.

Lemma df_modify_run h r d f :
  h !! r = Some d → df_modify r f h = Some ((), <[r := f d]> h).
Proof. intros Hr. unfold df_modify. by rewrite Hr. Qed.

Lemma df_copy_run h r d :
  h !! r = Some d →
  df_copy r h = Some (fresh (dom h), <[fresh (dom h) := d]> h).
Proof.
  intros Hr. unfold df_copy. by rewrite (bind_run _ _ h d h (df_read_run _ _ _ Hr)).
Qed.

(** A loop of assignments into one frame is the fold of its bodies. *)
Lemma for_each_modify (g : string → DataFrame → DataFrame) cols h r d :
  h !! r = Some d →
  for_each cols (λ c, df_modify r (g c)) h
  = Some ((), <[r := foldl (λ d c, g c d) d cols]> h).
Proof.
  revert h d. induction cols as [|c cols IH]; intros h d Hr; simpl.
  - unfold mret, St_ret. by rewrite insert_id.
  - rewrite (bind_run _ _ h () (<[r := g c d]> h)) by by apply df_modify_run.
    rewrite (IH _ (g c d)) by apply lookup_insert_eq.
    by rewrite insert_insert_eq.
Qed.
End store.

(** C10.  Run on a store in which the reference [r] holds the frame [df],
    [build_features] returns a reference that was not allocated before and
    holds the feature frame, and it leaves every frame of the store as it
    was, the caller's frame at [r] in particular: every assignment goes to
    the copy made on entry (or to the frame that [get_dummies] creates). *)
Theorem build_features_leaves_input (h : heap) (r : loc) (df : DataFrame) (t : string) :
  h !! r = Some df →
  ∃ r' h',
    build_features_st r t h = Some (r', h')
    ∧ h' !! r = Some df
    ∧ (∀ l, l ∈ dom h → h' !! l = h !! l)
    ∧ (r' ∉ dom h)
    ∧ h' !! r' = Some (build_features df t).
Proof.
  intros Hr. unfold build_features_st.
  set (r1 := fresh (dom h)).
  assert (r1 ∉ dom h) as Hfresh by apply is_fresh.
  rewrite (bind_run _ _ h r1 (<[r1 := df]> h)) by by apply df_copy_run.
  rewrite (bind_run _ _ _ df (<[r1 := df]> h))
    by (apply df_read_run, lookup_insert_eq).
  cbv zeta.
  set (bc := binary_cols df t). set (mc := multi_cat_cols df t).
  rewrite (bind_run _ _ _ () _
             (for_each_modify
                (λ col, update_col col (λ s, _map_binary_series (astype_str s)))
                bc _ r1 df (lookup_insert_eq _ _ _))).
  rewrite insert_insert_eq.
  fold (update_each (λ s, _map_binary_series (astype_str s)) bc df).
  fold (encode_binary bc df). set (df1 := encode_binary bc df).
  rewrite (bind_run _ _ _ df1 (<[r1 := df1]> h))
    by (apply df_read_run, lookup_insert_eq).
  assert (∃ hx,
    (if decide (columns (select_dtypes is_bool df1) = []) then mret ()
     else df_modify r1 (update_each astype_Int64 (columns (select_dtypes is_bool df1))))
      (<[r1 := df1]> h) = Some ((), hx)
    ∧ hx = <[r1 := convert_bool df1]> h) as (hx & Hstep4 & ->).
  { unfold convert_bool. destruct (decide _).
    - by eexists.
    - eexists. split; [by apply df_modify_run, lookup_insert_eq|].
      by rewrite insert_insert_eq. }
  rewrite (bind_run _ _ _ _ _ Hstep4).
  set (df2 := convert_bool df1).
  assert (∀ l, l ∈ dom h → l ≠ r1) as Hne.
  { intros l Hl ->. by apply Hfresh. }
  assert (r ≠ r1) as Hrr1.
  { apply Hne. apply elem_of_dom. by eexists. }
  destruct (decide (mc = [])) as [Hmc|Hmc].
  - rewrite (bind_run _ _ _ r1 (<[r1 := df2]> h)) by done.
    rewrite (bind_run _ _ _ () _
               (for_each_modify (λ c, update_col c clean_col)
                  bc _ r1 df2 (lookup_insert_eq _ _ _))).
    rewrite insert_insert_eq.
    exists r1, (<[r1 := foldl (λ d c, update_col c clean_col d) df2 bc]> h).
    split; [done|]. split; [by rewrite lookup_insert_ne|].
    split; [intros l Hl; rewrite lookup_insert_ne; [done|]; intros <-; by apply (Hne r1)|].
    split; [done|]. rewrite lookup_insert_eq. f_equal.
    unfold build_features. cbv zeta. fold bc mc df1 df2. by rewrite decide_True.
  - set (h2 := <[r1 := df2]> h).
    set (r2 := fresh (dom h2)).
    assert (r2 ∉ dom h2) as Hfresh2 by apply is_fresh.
    assert (r2 ≠ r1) as Hr21.
    { intros Heq. apply Hfresh2. rewrite Heq. unfold h2.
      apply elem_of_dom. rewrite lookup_insert_eq. by eexists. }
    assert (r2 ∉ dom h) as Hr2h.
    { intros Hin. apply Hfresh2. unfold h2. apply elem_of_dom.
      rewrite lookup_insert_ne by done. by apply elem_of_dom. }
    rewrite (bind_run _ _ _ r2 (<[r2 := get_dummies df2 mc]> h2)).
    2:{ rewrite (bind_run _ _ h2 df2 h2)
          by (apply df_read_run, lookup_insert_eq). done. }
    rewrite (bind_run _ _ _ () _
               (for_each_modify (λ c, update_col c clean_col)
                  bc _ r2 (get_dummies df2 mc) (lookup_insert_eq _ _ _))).
    rewrite insert_insert_eq.
    eexists r2, _. split; [done|].
    split.
    { rewrite lookup_insert_ne by (intros <-; apply Hr2h, elem_of_dom; by eexists).
      unfold h2. by rewrite lookup_insert_ne. }
    split.
    { intros l Hl. rewrite lookup_insert_ne by (intros <-; by apply Hr2h).
      unfold h2. rewrite lookup_insert_ne; [done|]. intros <-. by apply (Hne r1). }
    split; [done|]. rewrite lookup_insert_eq. f_equal.
    unfold build_features. cbv zeta. fold bc mc df1 df2. by rewrite decide_False.
Qed.

Lemma build_features_leaves_input_witness :
  ∃ r' h',
    build_features_st 0%nat "Churn" {[ 0%nat := telco_sample ]} = Some (r', h')
    ∧ h' !! 0%nat = Some telco_sample
    ∧ (∀ l, l ∈ dom ({[ 0%nat := telco_sample ]} : heap) →
         h' !! l = ({[ 0%nat := telco_sample ]} : heap) !! l)
    ∧ (r' ∉ dom ({[ 0%nat := telco_sample ]} : heap))
    ∧ h' !! r' = Some (build_features telco_sample "Churn").
Proof.
  apply (build_features_leaves_input {[ 0%nat := telco_sample ]} 0%nat telco_sample).
  reflexivity.
Defined.

(** * Further properties *)

(** ** The encoder on text columns *)

Lemma pair_set_eq (a b c d : string) :
  ({[a; b]} : gset string) = {[c; d]} → a ≠ b →
  (a = c ∧ b = d) ∨ (a = d ∧ b = c).
Proof.
  intros Heq Hab.
  assert (a ∈ ({[c; d]} : gset string)) as Ha.
  { rewrite <- Heq. apply elem_of_union. left. by apply elem_of_singleton. }
  assert (b ∈ ({[c; d]} : gset string)) as Hb.
  { rewrite <- Heq. apply elem_of_union. right. by apply elem_of_singleton. }
  rewrite elem_of_union, !elem_of_singleton in Ha, Hb.
  destruct Ha as [-> | ->], Hb as [-> | ->]; auto; by destruct Hab.
Qed.

(** The rule of the generic tier holds in the named tiers as well. *)
Lemma tier_any (l : list (option string)) (a b : string) :
  value_set l = {[a; b]} → String.ltb a b = true →
  _map_binary_series (SObject l) = SInt64 (code01 b <$> l).
Proof.
  intros Hset Hlt.
  pose proof (ltb_leb _ _ Hlt) as (_ & _ & Hab).
  destruct (decide (({[a; b]} : gset string) = {[ "Yes"; "No" ]})) as [Hyn|Hyn].
  { destruct (pair_set_eq _ _ _ _ Hyn Hab) as [[-> ->] | [-> ->]].
    - by vm_compute in Hlt.
    - apply tier_yes_no. by rewrite Hset. }
  destruct (decide (({[a; b]} : gset string) = {[ "Male"; "Female" ]})) as [Hmf|Hmf].
  { destruct (pair_set_eq _ _ _ _ Hmf Hab) as [[-> ->] | [-> ->]].
    - by vm_compute in Hlt.
    - apply tier_male_female. by rewrite Hset. }
  by apply (tier_generic l a b).
Qed.

(** X1.  The two named tiers agree with the generic rule: whatever the two
    texts of a two-valued text column are, the encoder gives 1 to the larger
    one in code-point order (["Yes"] above ["No"], ["Male"] above
    ["Female"]), 0 to the smaller one, and keeps missing cells missing. *)
Theorem larger_text_is_one_in_every_tier (l : list (option string)) (a b : string) :
  value_set l = {[a; b]} → String.ltb a b = true →
  _map_binary_series (SObject l) = SInt64 (code01 b <$> l)
  ∧ code01 b (Some b) = Some 1 ∧ code01 b (Some a) = Some 0
  ∧ code01 b None = None.
Proof.
  intros Hset Hlt. split; [by apply (tier_any l a b)|].
  pose proof (ltb_leb _ _ Hlt) as (_ & _ & Hab).
  unfold code01. simpl. split; [by rewrite decide_True|].
  split; [by rewrite decide_False|done].
Qed.

Lemma larger_text_is_one_in_every_tier_witness :
  _map_binary_series (SObject [Some "Male"; None; Some "Female"; Some "Male"])
  = SInt64 (code01 "Male" <$> [Some "Male"; None; Some "Female"; Some "Male"])
  ∧ code01 "Male" (Some "Male") = Some 1 ∧ code01 "Male" (Some "Female") = Some 0
  ∧ code01 "Male" None = None.
Proof.
  apply (larger_text_is_one_in_every_tier _ "Female" "Male").
  - vm_compute. reflexivity.
  - vm_compute. reflexivity.
Defined.

Lemma not_two_valued_unchanged (l : list (option string)) :
  nunique (SObject l) ≠ 2%nat → _map_binary_series (SObject l) = SObject l.
Proof.
  intros Hcard. rewrite nunique_object in Hcard.
  unfold _map_binary_series. cbv zeta. rewrite valset_object, vals_object.
  rewrite decide_False.
  2:{ intros Hset. apply Hcard.
      by destruct (value_set_two_vals l "Yes" "No" Hset) as [-> | ->]. }
  rewrite decide_False.
  2:{ intros Hset. apply Hcard.
      by destruct (value_set_two_vals l "Male" "Female" Hset) as [-> | ->]. }
  by rewrite decide_False.
Qed.

(** X2.  The encoder returns a text column as it is exactly when the column
    does not have two distinct non-missing values: constant, empty and
    many-valued columns pass through, two-valued ones never do. *)
Theorem passes_through_iff_not_two_valued (l : list (option string)) :
  _map_binary_series (SObject l) = SObject l ↔ nunique (SObject l) ≠ 2%nat.
Proof.
  split; [|apply not_two_valued_unchanged].
  intros Heq Hcard. destruct (map_binary_two_texts l Hcard) as (hi & Hhi).
  rewrite Hhi in Heq. discriminate.
Qed.

(** ** What [build_features] does to each kind of column *)

Lemma binary_cols_card (df : DataFrame) (t c : string) (s : Series) :
  c ∈ binary_cols df t → getitem df c = Some s → nunique s = 2%nat.
Proof.
  unfold binary_cols. intros [Hk _]%list_elem_of_filter Hget.
  unfold card in Hk. by rewrite Hget in Hk.
Qed.

Lemma multi_cat_cols_card (df : DataFrame) (t c : string) (s : Series) :
  c ∈ multi_cat_cols df t → getitem df c = Some s → (2 < nunique s)%nat.
Proof.
  unfold multi_cat_cols. intros [Hk _]%list_elem_of_filter Hget.
  unfold card in Hk. by rewrite Hget in Hk.
Qed.

Lemma obj_cols_intro (df : DataFrame) (t c : string) (s : Series) :
  getitem df c = Some s → is_object s = true → c ≠ t → c ∈ obj_cols df t.
Proof.
  intros Hget Ho Hne. apply elem_obj_cols. split; [done|]. exists s.
  split; [by apply getitem_Some_elem|done].
Qed.

(** X3.  A binary column never comes out of [build_features] partly
    encoded: the output column is either a nullable-integer column of the
    same length holding 0 and 1 only, with no missing cell, or the input
    column turned to text, cell for cell. *)
Theorem binary_column_all_or_nothing (df : DataFrame) (t c : string) (s : Series) :
  NoDup (columns df) → c ∈ binary_cols df t → getitem df c = Some s →
  (∃ zs, getitem (build_features df t) c = Some (SInt64 (Some <$> zs))
         ∧ length zs = nrows s ∧ Forall (λ z, z = 0 ∨ z = 1) zs)
  ∨ getitem (build_features df t) c = Some (astype_str s).
Proof.
  intros Hnd Hc Hget.
  pose proof (obj_cols_object _ _ _ _ Hnd (binary_cols_obj _ _ _ Hc) Hget) as Ho.
  destruct s as [l| | | |]; try done.
  rewrite (binary_column_encoded df t c _ Hnd Hc Hget), astype_str_object.
  set (l' := (λ o, Some (default "nan" o)) <$> l).
  destruct (decide (nunique (SObject l') = 2%nat)) as [Hcard|Hcard].
  - left. destruct (map_binary_two_texts l' Hcard) as (hi & ->).
    exists ((λ o, if decide (default "nan" o = hi) then 1 else 0) <$> l).
    split; [|split].
    + unfold clean_col, l'. simpl. do 2 f_equal.
      rewrite <- !list_fmap_compose. apply list_fmap_ext. intros i o _. simpl.
      by destruct (decide _).
    + unfold nrows. simpl. by rewrite !length_fmap.
    + apply Forall_fmap, Forall_forall. intros o _. simpl.
      destruct (decide _); auto.
  - right. by rewrite (not_two_valued_unchanged l' Hcard).
Qed.

Lemma binary_column_all_or_nothing_witness :
  (∃ zs, getitem (build_features telco_sample "Churn") "gender"
         = Some (SInt64 (Some <$> zs))
         ∧ length zs
           = nrows (SObject [Some "Female"; Some "Male"; Some "Female"; Some "Male"])
         ∧ Forall (λ z, z = 0 ∨ z = 1) zs)
  ∨ getitem (build_features telco_sample "Churn") "gender"
    = Some (astype_str (SObject [Some "Female"; Some "Male"; Some "Female"; Some "Male"])).
Proof.
  apply (binary_column_all_or_nothing telco_sample "Churn" "gender").
  - apply (bool_decide_unpack _). vm_compute. exact I.
  - apply (bool_decide_unpack _). vm_compute. exact I.
  - reflexivity.
Defined.

(** X4.  [build_features] never alters a column that is not a text feature
    with at least two values: numeric columns, the target whatever it holds,
    and text columns with fewer than two distinct non-missing values come out
    as they went in.  ([bool] columns are the exception: step 4 casts them.) *)
Theorem other_columns_untouched (df : DataFrame) (t c : string) (s : Series) :
  NoDup (columns df) → getitem df c = Some s → is_bool s = false →
  is_object s = false ∨ c = t ∨ (nunique s < 2)%nat →
  getitem (build_features df t) c = Some s.
Proof.
  intros Hnd Hget Hb Hcases.
  rewrite (build_features_getitem df t c s Hnd Hget), Hb; [done|..].
  - intros Hc.
    pose proof (obj_cols_object _ _ _ _ Hnd (binary_cols_obj _ _ _ Hc) Hget) as Ho.
    pose proof (binary_cols_card _ _ _ _ Hc Hget) as Hk.
    apply binary_cols_obj, elem_obj_cols in Hc as [Hne _].
    destruct Hcases as [Hno | [-> | Hlt]]; [congruence|done|lia].
  - intros Hc.
    pose proof (obj_cols_object _ _ _ _ Hnd (multi_cat_cols_obj _ _ _ Hc) Hget) as Ho.
    pose proof (multi_cat_cols_card _ _ _ _ Hc Hget) as Hk.
    apply multi_cat_cols_obj, elem_obj_cols in Hc as [Hne _].
    destruct Hcases as [Hno | [-> | Hlt]]; [congruence|done|lia].
Qed.

Lemma other_columns_untouched_witness :
  getitem (build_features telco_sample "Churn") "tenure" = Some (SInt [1; 34; 2; 45]).
Proof.
  apply (other_columns_untouched telco_sample "Churn" "tenure").
  - apply (bool_decide_unpack _). vm_compute. exact I.
  - reflexivity.
  - reflexivity.
  - left. reflexivity.
Defined.

(** ** The shape of the output of [build_features] *)

Lemma filter_notin_nil (l : list string) : filter (λ n, n ∉ []) l = l.
Proof.
  induction l as [|x l IH]; [done|].
  rewrite filter_cons_True by apply not_elem_of_nil. by rewrite IH.
Qed.

Lemma multi_col_lookup (df : DataFrame) (t c : string) :
  NoDup (columns df) → c ∈ multi_cat_cols df t →
  ∃ s, getitem df c = Some s
       ∧ getitem (convert_bool (encode_binary (binary_cols df t) df)) c = Some s.
Proof.
  intros Hnd Hc.
  pose proof (multi_cat_cols_obj _ _ _ Hc) as (_ & s & Hin & _)%elem_obj_cols.
  pose proof (NoDup_getitem _ _ _ Hnd Hin) as Hget.
  exists s. split; [done|]. by apply multi_col_before_dummies.
Qed.

(** X5.  The labels of the output, in order: the labels of the input that
    are not multi-category, in their input order, followed by the indicator
    labels of the multi-category columns, column after column in input
    order. *)
Theorem output_labels (df : DataFrame) (t : string) :
  NoDup (columns df) →
  columns (build_features df t)
  = filter (λ n, n ∉ multi_cat_cols df t) (columns df)
    ++ (multi_cat_cols df t ≫= dummy_labels df).
Proof.
  intros Hnd. unfold build_features, clean_dtypes. cbv zeta.
  rewrite columns_update_each.
  set (df2 := convert_bool (encode_binary (binary_cols df t) df)).
  assert (columns df2 = columns df) as Hcols.
  { unfold df2, encode_binary. by rewrite columns_convert_bool, columns_update_each. }
  destruct (decide (multi_cat_cols df t = [])) as [Hnil|Hne].
  { rewrite Hnil, filter_notin_nil, Hcols. simpl. by rewrite app_nil_r. }
  unfold get_dummies. unfold columns at 1. rewrite fmap_app.
  fold (columns (filter (λ e, e.1 ∉ multi_cat_cols df t) df2)).
  rewrite columns_drop_labels_eq, Hcols. f_equal.
  assert (∀ m, (∀ c, c ∈ m → c ∈ multi_cat_cols df t) →
    (m ≫= λ c, from_option (get_dummies_1d c) [] (getitem df2 c)).*1
    = m ≫= dummy_labels df) as Hbind.
  { induction m as [|c m IH]; intros Hm; [done|].
    rewrite !bind_cons, fmap_app, IH.
    2:{ intros c' Hc'. apply Hm, elem_of_cons. by right. }
    f_equal. destruct (multi_col_lookup df t c Hnd) as (s & Hget & Hget2).
    { apply Hm, elem_of_cons. by left. }
    fold df2 in Hget2. unfold dummy_labels. by rewrite Hget, Hget2. }
  by apply Hbind.
Qed.

Lemma output_labels_witness :
  columns (build_features telco_sample "Churn")
  = filter (λ n, n ∉ multi_cat_cols telco_sample "Churn") (columns telco_sample)
    ++ (multi_cat_cols telco_sample "Churn" ≫= dummy_labels telco_sample).
Proof.
  apply (output_labels telco_sample "Churn").
  apply (bool_decide_unpack _). vm_compute. exact I.
Defined.

Section rows.
Implicit Types (df : DataFrame) (s : Series) (n : nat).

Lemma nrows_astype_str s : nrows (astype_str s) = nrows s.
Proof. unfold nrows. simpl. by rewrite !length_fmap. Qed.

Lemma nrows_map_Int64 mapping s : nrows (map_Int64 mapping s) = nrows s.
Proof. unfold nrows. simpl. by rewrite !length_fmap. Qed.

Lemma nrows_map_binary s : nrows (_map_binary_series s) = nrows s.
Proof.
  unfold _map_binary_series. cbv zeta.
  repeat case_decide; by rewrite ?nrows_map_Int64.
Qed.

Lemma nrows_astype_Int64 s : nrows (astype_Int64 s) = nrows s.
Proof. destruct s; unfold nrows; simpl; by rewrite ?length_fmap. Qed.

Lemma nrows_fillna0 s : nrows (fillna0 s) = nrows s.
Proof. destruct s; unfold nrows; simpl; by rewrite ?length_fmap. Qed.

Lemma nrows_clean_col s : nrows (clean_col s) = nrows s.
Proof.
  unfold clean_col. destruct (is_integer_dtype s); [|done].
  by rewrite nrows_astype_Int64, nrows_fillna0.
Qed.

Lemma nrows_get_dummies_1d c s e : e ∈ get_dummies_1d c s → nrows e.2 = nrows s.
Proof.
  destruct e as [n ind]. intros (level & _ & _ & ->)%get_dummies_1d_spec.
  unfold nrows. simpl. by rewrite !length_fmap.
Qed.

(** A loop of column updates keeps what every update keeps. *)
Lemma Forall_update_each (P : Series → Prop) (g : Series → Series) cols df :
  (∀ s, P s → P (g s)) →
  Forall (λ e, P e.2) df → Forall (λ e, P e.2) (update_each g cols df).
Proof.
  intros Hg. revert df. induction cols as [|c cols IH]; intros df Hdf; [done|].
  unfold update_each in *. simpl. apply IH. unfold update_col.
  apply Forall_fmap. eapply Forall_impl; [done|]. intros [n s] Hs. simpl in *.
  destruct (decide _); simpl; auto.
Qed.
End rows.

(** X6.  [build_features] keeps the number of rows: when every column of
    the input (a frame with distinct labels) has [n] rows, so has every column of the output, the new
    indicator columns included. *)
Theorem row_count_preserved (df : DataFrame) (t : string) (n : nat) :
  NoDup (columns df) →
  Forall (λ e, nrows e.2 = n) df →
  Forall (λ e, nrows e.2 = n) (build_features df t).
Proof.
  intros _ Hdf. unfold build_features, clean_dtypes, encode_binary. cbv zeta.
  apply (Forall_update_each (λ s, nrows s = n)).
  { intros s. by rewrite nrows_clean_col. }
  set (df1 := update_each _ (binary_cols df t) df).
  assert (Forall (λ e, nrows e.2 = n) df1) as H1.
  { apply (Forall_update_each (λ s, nrows s = n)); [|done].
    intros s. by rewrite nrows_map_binary, nrows_astype_str. }
  assert (Forall (λ e, nrows e.2 = n) (convert_bool df1)) as H2.
  { unfold convert_bool. destruct (decide _); [done|].
    apply (Forall_update_each (λ s, nrows s = n)); [|done].
    intros s. by rewrite nrows_astype_Int64. }
  destruct (decide _); [done|]. unfold get_dummies. apply Forall_app. split.
  - rewrite Forall_forall in H2. apply Forall_forall.
    intros e [_ He]%list_elem_of_filter. by apply H2.
  - apply Forall_forall. intros e (c & He & _)%list_elem_of_bind.
    destruct (getitem (convert_bool df1) c) as [s|] eqn:Hget; simpl in He.
    + rewrite (nrows_get_dummies_1d _ _ _ He).
      apply getitem_Some_elem in Hget. rewrite Forall_forall in H2.
      by apply (H2 (c, s)).
    + by apply elem_of_nil in He.
Qed.

Lemma row_count_preserved_witness :
  Forall (λ e, nrows e.2 = 4%nat) (build_features telco_sample "Churn").
Proof.
  apply (row_count_preserved telco_sample "Churn" 4).
  - apply (bool_decide_unpack _). vm_compute. exact I.
  - repeat constructor.
Defined.

(** ** The reference level of the indicator columns *)

Lemma leb_trans (a b c : string) :
  String.leb a b = true → String.leb b c = true → String.leb a c = true.
Proof.
  intros Hab Hbc. apply Is_true_true.
  change (String.le a c). transitivity b; unfold String.le; by apply Is_true_true.
Qed.

Lemma leb_refl (a : string) : String.leb a a = true.
Proof. destruct (String.leb_total a a); done. Qed.

Lemma insert_sorted_head (x : string) (l : list string) :
  head (insert_sorted x l)
  = Some (match l with
          | [] => x
          | y :: _ => if String.leb x y then x else y
          end).
Proof. destruct l as [|y l]; simpl; [done|]. by destruct (String.leb x y). Qed.

(** The first element of [sorted l] is below every element of [l]. *)
Lemma sorted_head_least (l : list string) (m : string) :
  head (sorted l) = Some m → ∀ x, x ∈ l → String.leb m x = true.
Proof.
  revert m. induction l as [|y l IH]; intros m Hm x Hx.
  { by apply elem_of_nil in Hx. }
  simpl in Hm. rewrite insert_sorted_head in Hm. injection Hm as <-.
  destruct (sorted l) as [|z sl] eqn:Hsl.
  - assert (l = []) as ->.
    { apply Permutation_nil_r. by rewrite <- (sorted_perm l), Hsl. }
    apply elem_of_cons in Hx as [-> | Hx]; [apply leb_refl|].
    by apply elem_of_nil in Hx.
  - specialize (IH z eq_refl).
    destruct (String.leb y z) eqn:Hyz.
    + apply elem_of_cons in Hx as [-> | Hx]; [apply leb_refl|].
      eapply leb_trans; [done|]. by apply IH.
    + apply elem_of_cons in Hx as [Heq | Hx]; [subst x|by apply IH].
      destruct (String.leb_total y z) as [Hc | Hc]; [|done].
      by rewrite Hc in Hyz.
Qed.

(** X7.  The category that gets no indicator column is the least one in
    code-point order.  For a text column with at least one value, the
    indicator columns are those of the other categories, and a row holds
    [False] in all of them exactly when its cell is missing or holds that
    least category. *)
Theorem reference_level_is_least (c : string) (l : list (option string)) :
  (0 < nunique (SObject l))%nat →
  ∃ ref rest,
    sorted (unique (omap id l)) = ref :: rest
    ∧ (∀ x, Some x ∈ l → String.leb ref x = true)
    ∧ (∀ x, Some x ∈ l ↔ x = ref ∨ x ∈ rest)
    ∧ (ref ∉ rest)
    ∧ columns (get_dummies_1d c (SObject l)) = (λ lev, c +:+ "_" +:+ lev) <$> rest
    ∧ ∀ i o, l !! i = Some o →
        (Forall (λ e, cells e.2 !! i = Some (VBool false))
                (get_dummies_1d c (SObject l))
         ↔ o = None ∨ o = Some ref).
Proof.
  rewrite nunique_object. intros Hpos.
  pose proof (sorted_perm (unique (omap id l))) as Hperm.
  destruct (sorted (unique (omap id l))) as [|ref rest] eqn:Hs.
  { apply Permutation_nil_l in Hperm. rewrite <- Hperm in Hpos. simpl in Hpos. lia. }
  assert (∀ x, Some x ∈ l ↔ x ∈ ref :: rest) as Hmem.
  { intros x. rewrite Hperm, elem_of_unique, list_elem_of_omap. split.
    - intros Hx. by exists (Some x).
    - intros (o & Ho & Hid). simpl in Hid. by subst o. }
  assert (NoDup (ref :: rest)) as Hnd.
  { rewrite Hperm. apply NoDup_unique. }
  apply NoDup_cons in Hnd as [Href Hnd].
  exists ref, rest. split; [done|]. split; [|split; [|split; [done|split]]].
  - intros x Hx. apply (sorted_head_least (unique (omap id l))).
    + by rewrite Hs.
    + rewrite elem_of_unique, list_elem_of_omap. by exists (Some x).
  - intros x. by rewrite Hmem, elem_of_cons.
  - simpl. rewrite Hs. simpl. unfold columns. rewrite <- list_fmap_compose.
    by apply list_fmap_ext.
  - intros i o Hi. simpl. rewrite Hs. simpl. rewrite Forall_fmap.
    split.
    + intros Hall. destruct o as [x|]; [|by left]. right. f_equal.
      assert (x ∈ ref :: rest) as [-> | Hx]%elem_of_cons; [|done|].
      { apply Hmem. by apply list_elem_of_lookup_2 in Hi. }
      rewrite Forall_forall in Hall. specialize (Hall x Hx). simpl in Hall.
      rewrite !list_lookup_fmap, Hi in Hall. simpl in Hall.
      rewrite bool_decide_eq_true_2 in Hall by done. discriminate.
    + intros Ho. apply Forall_forall. intros lev Hlev. simpl.
      rewrite !list_lookup_fmap, Hi. simpl. do 2 f_equal.
      apply bool_decide_eq_false_2. destruct Ho as [-> | ->]; [done|].
      intros [= <-]. by apply Href.
Qed.

Lemma reference_level_is_least_witness :
  let l := [Some "One year"; Some "Month-to-month"; None; Some "Two year"] in
  ∃ ref rest,
    sorted (unique (omap id l)) = ref :: rest
    ∧ (∀ x, Some x ∈ l → String.leb ref x = true)
    ∧ (∀ x, Some x ∈ l ↔ x = ref ∨ x ∈ rest)
    ∧ (ref ∉ rest)
    ∧ columns (get_dummies_1d "Contract" (SObject l))
      = (λ lev, "Contract" +:+ "_" +:+ lev) <$> rest
    ∧ ∀ i o, l !! i = Some o →
        (Forall (λ e, cells e.2 !! i = Some (VBool false))
                (get_dummies_1d "Contract" (SObject l))
         ↔ o = None ∨ o = Some ref).
Proof.
  apply (reference_level_is_least "Contract"
           [Some "One year"; Some "Month-to-month"; None; Some "Two year"]).
  vm_compute. lia.
Defined.

Example ex_reference_level :
  get_dummies_1d "Contract"
    (SObject [Some "One year"; Some "Month-to-month"; None; Some "Two year"])
  = [ ("Contract_One year", SBool [true; false; false; false]);
      ("Contract_Two year", SBool [false; false; false; true]) ].
Proof. vm_compute. reflexivity. Qed.

(** ** When no text is left in the output *)

Section no_text.
Implicit Types (df : DataFrame) (s : Series).

Lemma is_object_clean_col s : is_object (clean_col s) = is_object s.
Proof. by destruct s. Qed.

Lemma is_object_astype_Int64 s : is_object (astype_Int64 s) = is_object s.
Proof. by destruct s. Qed.

Lemma elem_convert_bool df e :
  e ∈ convert_bool df → ∃ s, (e.1, s) ∈ df ∧ is_object e.2 = is_object s.
Proof.
  unfold convert_bool. destruct (decide _) as [_|_].
  - intros He. exists e.2. by destruct e.
  - rewrite update_each_map by apply astype_Int64_idemp.
    intros ([n s] & -> & Hin)%list_elem_of_fmap. exists s. simpl.
    destruct (decide _); simpl; [|done]. split; [done|].
    apply is_object_astype_Int64.
Qed.

(** The encoder on a complete two-valued text column, as step 3 calls it. *)
Lemma encode_complete (l : list (option string)) :
  Forall is_Some l → nunique (SObject l) = 2%nat →
  ∃ hi, _map_binary_series (astype_str (SObject l)) = SInt64 (code01 hi <$> l).
Proof.
  intros Hall Hcard. rewrite astype_str_object.
  assert ((λ o : option string, Some (default "nan" o)) <$> l = l) as ->.
  { etrans; [|apply list_fmap_id]. apply Forall_fmap_ext.
    eapply Forall_impl; [done|]. by intros o [x ->]. }
  by apply map_binary_two_texts.
Qed.
End no_text.

(** X8.  When every text feature of the input is complete (no missing
    cell) and has at least two distinct values, no text is left in the
    output: every output column other than the target is numeric or an
    indicator. *)
Theorem no_text_left (df : DataFrame) (t : string) :
  NoDup (columns df) →
  (∀ c l, c ≠ t → getitem df c = Some (SObject l) →
          Forall is_Some l ∧ (2 ≤ nunique (SObject l))%nat) →
  Forall (λ e, e.1 ≠ t → is_object e.2 = false) (build_features df t).
Proof.
  intros Hnd Hfeat. apply Forall_forall. intros [c s'] Hin Hct. simpl in Hct |- *.
  set (bc := binary_cols df t). set (mc := multi_cat_cols df t).
  set (df1 := encode_binary bc df). set (df2 := convert_bool df1).
  assert (columns df1 = columns df) as Hcols1.
  { unfold df1, encode_binary. apply columns_update_each. }
  (* the columns that reach step 5 and are not expanded *)
  assert (∀ e, e ∈ df2 → e.1 ∉ mc → e.1 ≠ t → is_object e.2 = false) as Hkept.
  { intros e He Hmc Het.
    destruct (elem_convert_bool _ _ He) as (s1 & Hs1 & ->).
    assert (getitem df1 e.1 = Some s1) as Hget1.
    { apply NoDup_getitem; [by rewrite Hcols1|done]. }
    destruct (getitem df e.1) as [s|] eqn:Hget.
    2:{ apply getitem_None in Hget. exfalso. apply Hget. rewrite <- Hcols1.
        apply list_elem_of_fmap. by exists (e.1, s1). }
    destruct (decide (e.1 ∈ bc)) as [Hb|Hb].
    - unfold df1, encode_binary in Hget1.
      rewrite getitem_update_each_once, Hget in Hget1;
        [|by apply NoDup_binary_cols|done].
      injection Hget1 as <-.
      pose proof (obj_cols_object _ _ _ _ Hnd (binary_cols_obj _ _ _ Hb) Hget) as Ho.
      destruct s as [l| | | |]; try done.
      destruct (Hfeat _ _ Het Hget) as [Hall _].
      destruct (encode_complete l Hall (binary_cols_card _ _ _ _ Hb Hget))
        as (hi & ->). done.
    - unfold df1, encode_binary in Hget1.
      rewrite getitem_update_each_notin, Hget in Hget1 by done.
      injection Hget1 as <-.
      destruct (is_object s) eqn:Ho; [|done]. exfalso.
      destruct s as [l| | | |]; try done.
      destruct (Hfeat _ _ Het Hget) as [_ Hk].
      pose proof (obj_cols_intro df t _ _ Hget Ho Het) as Hobj.
      destruct (decide (nunique (SObject l) = 2%nat)) as [H2|H2].
      + apply Hb. unfold bc, binary_cols. apply list_elem_of_filter.
        split; [|done]. unfold card. by rewrite Hget.
      + apply Hmc. unfold mc, multi_cat_cols. apply list_elem_of_filter.
        split; [|done]. unfold card. rewrite Hget. simpl. lia. }
  unfold build_features, clean_dtypes in Hin. cbv zeta in Hin.
  fold bc mc df1 df2 in Hin.
  rewrite update_each_map in Hin by apply clean_col_idemp.
  apply list_elem_of_fmap in Hin as (e & Heq & He).
  assert (c = e.1 ∧ is_object s' = is_object e.2) as [-> ->].
  { destruct e as [n s]. simpl in *.
    destruct (decide _); injection Heq as -> ->; [|done].
    split; [done|apply is_object_clean_col]. }
  destruct (decide (mc = [])) as [Hnil|Hne].
  - apply Hkept; [done| |done]. rewrite Hnil. apply not_elem_of_nil.
  - unfold get_dummies in He. apply elem_of_app in He as [He|He].
    + apply list_elem_of_filter in He as [Hmc He]. by apply Hkept.
    + apply list_elem_of_bind in He as (c' & He & _).
      destruct (getitem df2 c') as [s|]; simpl in He.
      * apply get_dummies_1d_bool in He. by destruct (e.2).
      * by apply elem_of_nil in He.
Qed.

Lemma no_text_left_witness :
  Forall (λ e, e.1 ≠ "Churn" → is_object e.2 = false)
         (build_features complete_sample "Churn").
Proof.
  apply (no_text_left complete_sample "Churn").
  - apply (bool_decide_unpack _). vm_compute. exact I.
  - intros c l Hne Hget. simpl in Hget.
    repeat (destruct (decide _) in Hget;
            [first [ discriminate
                   | injection Hget as <-;
                     split; [repeat constructor; by eexists | vm_compute; lia] ]|]).
    discriminate.
Defined.

(** ** The integer cast of the pipeline script *)

Lemma astype_int_bool_idemp (s : Series) :
  astype_int_bool (astype_int_bool s) = astype_int_bool s.
Proof. by destruct s. Qed.

(** X9.  On a frame with distinct labels, the loop of lines 99 and 100
    casts exactly the [bool] columns:
    every [bool] column becomes a column of the integers 0 and 1, every
    other column is left as it is, so that no [bool] column remains and the
    labels are unchanged. *)
Theorem bools_to_int_casts_exactly_bools (df : DataFrame) :
  NoDup (columns df) →
  bools_to_int df = (λ e, (e.1, astype_int_bool e.2)) <$> df
  ∧ Forall (λ e, is_bool e.2 = false) (bools_to_int df)
  ∧ columns (bools_to_int df) = columns df.
Proof.
  intros _.
  assert (bools_to_int df = (λ e, (e.1, astype_int_bool e.2)) <$> df) as Heq.
  { unfold bools_to_int. rewrite update_each_map by apply astype_int_bool_idemp.
    apply list_fmap_ext. intros i [n s] Hi. simpl.
    destruct (decide _) as [|Hn]; [done|]. f_equal.
    destruct (is_bool s) eqn:Hb; [|by destruct s].
    exfalso. apply Hn, elem_select_columns. exists s. split; [|done].
    by apply list_elem_of_lookup_2 in Hi. }
  split; [done|]. split; [|apply columns_bools_to_int].
  rewrite Heq. apply Forall_fmap, Forall_forall. intros [n s] _. simpl.
  by destruct s.
Qed.

Lemma bools_to_int_casts_exactly_bools_witness :
  bools_to_int (build_features telco_sample "Churn")
  = (λ e, (e.1, astype_int_bool e.2)) <$> build_features telco_sample "Churn"
  ∧ Forall (λ e, is_bool e.2 = false)
           (bools_to_int (build_features telco_sample "Churn"))
  ∧ columns (bools_to_int (build_features telco_sample "Churn"))
    = columns (build_features telco_sample "Churn").
Proof.
  apply (bools_to_int_casts_exactly_bools (build_features telco_sample "Churn")).
  apply (bool_decide_unpack _). vm_compute. exact I.
Defined.

(** ** [preprocess_data], step by step *)

Section preprocess_steps.
Implicit Types (df d : DataFrame) (t c : string) (s : Series).

Lemma drop_column_absent c df : c ∉ columns df → drop_column c df = df.
Proof.
  unfold columns, drop_column. induction df as [|[n s] df IH]; [done|].
  rewrite fmap_cons, not_elem_of_cons. intros [Hne Hc]. simpl in Hne.
  rewrite filter_cons_True by (simpl; congruence). by rewrite IH.
Qed.

Lemma drop_id_cols_filter df :
  drop_id_cols df
  = filter (λ e, e.1 ∉ ["customerID"; "CustomerID"; "customer_id"]) df.
Proof.
  assert (∀ col d, (if decide (col ∈ columns d) then drop_column col d else d)
                   = drop_column col d) as Hstep.
  { intros col d. destruct (decide _); [done|]. by rewrite drop_column_absent. }
  unfold drop_id_cols. simpl. rewrite !Hstep. unfold drop_column.
  rewrite !list_filter_filter.
  induction df as [|[n s] df IH]; [done|].
  rewrite !filter_cons, IH. cbn [fst].
  pose proof (not_elem_of_nil n) as Hnil.
  destruct (decide (n ∉ _)) as [Hn|Hn]; rewrite !not_elem_of_cons in Hn.
  - rewrite decide_True; [done|tauto].
  - rewrite decide_False; [done|tauto].
Qed.

Lemma columns_strip_columns df : columns (strip_columns df) = strip <$> columns df.
Proof.
  unfold columns, strip_columns. rewrite <- !list_fmap_compose.
  by apply list_fmap_ext.
Qed.

Lemma columns_cleaned_labels df :
  columns (cleaned_labels df)
  = filter (λ n, n ∉ ["customerID"; "CustomerID"; "customer_id"])
           (strip <$> columns df).
Proof.
  unfold cleaned_labels. rewrite drop_id_cols_filter, columns_drop_labels_eq.
  by rewrite columns_strip_columns.
Qed.

Lemma cast_senior_citizen_inv df d :
  cast_senior_citizen df = Some d →
  columns d = columns df
  ∧ ∀ c, c ≠ "SeniorCitizen" → getitem d c = getitem df c.
Proof.
  unfold cast_senior_citizen. destruct (decide _).
  - destruct (getitem df "SeniorCitizen") as [s|]; [|done]. simpl.
    destruct (fillna0_astype_int s) as [s'|]; [|done]. simpl.
    intros [= <-]. split; [apply columns_update_col|].
    intros c Hc. rewrite getitem_update_col, decide_False by done.
    by destruct (getitem df c).
  - by intros [= <-].
Qed.

Lemma columns_fill_numeric df : columns (fill_numeric df) = columns df.
Proof. apply columns_update_each. Qed.

Lemma fillna0_idemp s : fillna0 (fillna0 s) = fillna0 s.
Proof.
  destruct s as [l|l|l|l|l]; try done; simpl; f_equal;
    rewrite <- list_fmap_compose; by apply list_fmap_ext.
Qed.

Lemma is_number_fillna0 s : is_number (fillna0 s) = is_number s.
Proof. by destruct s. Qed.

Lemma fillna0_no_na s : is_number s = true → VNA ∉ cells (fillna0 s).
Proof.
  destruct s as [l|l|l|l|l]; try done; intros _; simpl;
    rewrite <- ?list_fmap_compose;
    by intros (x & Hx & _)%list_elem_of_fmap.
Qed.

Lemma getitem_fill_numeric_text df c s :
  NoDup (columns df) → getitem df c = Some s → is_number s = false →
  getitem (fill_numeric df) c = Some s.
Proof.
  intros Hnd Hget Hnum. unfold fill_numeric.
  rewrite getitem_update_each_notin; [done|].
  intros (s' & Hin & Hs')%elem_select_columns.
  rewrite (NoDup_getitem _ _ _ Hnd Hin) in Hget. congruence.
Qed.

(** The frame after the target and [TotalCharges] steps. *)
Lemma preprocess_data_unfold df t :
  preprocess_data df t
  = d ← cast_senior_citizen
          (coerce_total_charges (encode_target t (cleaned_labels df)));
    Some (fill_numeric d).
Proof. done. Qed.
End preprocess_steps.

(** X10.  When [preprocess_data] returns, the labels of its result are the
    trimmed labels of the input without the three id labels, in the input
    order: no other column is dropped, added or moved.  (Here and below the
    labels are assumed distinct once trimmed.) *)
Theorem preprocess_labels (df d : DataFrame) (t : string) :
  NoDup (columns (cleaned_labels df)) →
  preprocess_data df t = Some d →
  columns d = filter (λ n, n ∉ ["customerID"; "CustomerID"; "customer_id"])
                     (strip <$> columns df).
Proof.
  intros _. rewrite preprocess_data_unfold. intros Hd.
  destruct (cast_senior_citizen _) as [d3|] eqn:Hcast; [|done].
  injection Hd as <-. destruct (cast_senior_citizen_inv _ _ Hcast) as [Hcols _].
  rewrite columns_fill_numeric, Hcols, columns_coerce_total_charges.
  by rewrite columns_encode_target, columns_cleaned_labels.
Qed.

Lemma preprocess_labels_witness :
  columns [("Churn", SInt [1; 0])]
  = filter (λ n, n ∉ ["customerID"; "CustomerID"; "customer_id"])
           (strip <$> columns padded_target).
Proof.
  apply (preprocess_labels padded_target [("Churn", SInt [1; 0])] "Churn").
  - apply (bool_decide_unpack _). vm_compute. exact I.
  - vm_compute. reflexivity.
Defined.

Example ex_preprocess_labels :
  columns preprocessed_sample
  = filter (λ n, n ∉ ["customerID"; "CustomerID"; "customer_id"])
           (strip <$> columns raw_sample).
Proof. vm_compute. reflexivity. Qed.

(** X11.  When [preprocess_data] returns, no numeric column of its result
    has a missing cell. *)
Theorem preprocess_no_missing_number (df d : DataFrame) (t c : string) (s : Series) :
  NoDup (columns (cleaned_labels df)) →
  preprocess_data df t = Some d → (c, s) ∈ d → is_number s = true →
  VNA ∉ cells s.
Proof.
  intros _. rewrite preprocess_data_unfold. intros Hd Hin Hnum.
  destruct (cast_senior_citizen _) as [d3|]; [|done]. injection Hd as <-.
  unfold fill_numeric in Hin. rewrite update_each_map in Hin by apply fillna0_idemp.
  apply list_elem_of_fmap in Hin as ([n s0] & Heq & Hin). simpl in Heq.
  destruct (decide _) as [_|Hn]; injection Heq as -> ->.
  - apply fillna0_no_na. by rewrite is_number_fillna0 in Hnum.
  - exfalso. apply Hn, elem_select_columns. by exists s0.
Qed.

Lemma preprocess_no_missing_number_witness :
  VNA ∉ cells (SFloat [Some (Dec 2985 2); Some (Dec 18895 1); Some (Dec 0 0)]).
Proof.
  apply (preprocess_no_missing_number raw_sample preprocessed_sample
           "Churn" "TotalCharges").
  - apply (bool_decide_unpack _). vm_compute. exact I.
  - vm_compute. reflexivity.
  - apply (bool_decide_unpack _). vm_compute. exact I.
  - reflexivity.
Defined.

(** ** The target, the text features and [SeniorCitizen] in [preprocess_data] *)

Section preprocess_columns.
Implicit Types (df d : DataFrame) (t c : string) (s : Series).

Lemma map_cell_yes_no (o : option string) :
  map_cell (<["No" := 0]> (<["Yes" := 1]> ∅)) (opt_cell VStr (strip <$> o))
  = yes_no_code o.
Proof.
  destruct o as [x|]; [|done]. unfold yes_no_code.
  cbn [fmap option_fmap option_map opt_cell from_option map_cell mbind option_bind].
  generalize (strip x). intros y.
  destruct (decide (y = "Yes")) as [->|Hy]; [by vm_compute|].
  destruct (decide (y = "No")) as [->|Hn]; [by apply lookup_insert_eq|].
  by rewrite !lookup_insert_ne, lookup_empty by done.
Qed.

(** [s.str.strip().map({"Yes": 1, "No": 0})] on a text column. *)
Lemma s_map_yes_no (l : list (option string)) :
  s_map (<["No" := 0]> (<["Yes" := 1]> ∅)) (str_strip (SObject l))
  = if decide (Forall (λ o, is_Some (yes_no_code o)) l)
    then SInt ((λ o, default 0 (yes_no_code o)) <$> l)
    else SFloat ((λ o, (λ z, Dec z 0) <$> yes_no_code o) <$> l).
Proof.
  unfold s_map. simpl.
  assert (map_cell (<["No" := 0]> (<["Yes" := 1]> ∅))
            <$> (opt_cell VStr <$> ((λ o : option string, strip <$> o) <$> l))
          = yes_no_code <$> l) as ->.
  { rewrite <- !list_fmap_compose. apply list_fmap_ext. intros i o _.
    apply map_cell_yes_no. }
  destruct (decide _) as [Hall|Hnot].
  - rewrite (mapM_Some_2 id _ ((λ o, default 0 (yes_no_code o)) <$> l)); [done|].
    apply Forall2_fmap, Forall_Forall2_diag.
    eapply Forall_impl; [done|]. by intros o [z ->].
  - rewrite (mapM_None_2 id).
    + f_equal. rewrite <- list_fmap_compose. done.
    + apply Exists_fmap. apply not_Forall_Exists in Hnot; [|apply _].
      eapply Exists_impl; [done|]. intros o Ho. simpl.
      destruct (yes_no_code o) eqn:E; [|done]. exfalso. apply Ho. by eexists.
Qed.

Lemma getitem_encode_target t df l :
  getitem df t = Some (SObject l) →
  getitem (encode_target t df) t
  = Some (s_map (<["No" := 0]> (<["Yes" := 1]> ∅)) (str_strip (SObject l))).
Proof.
  intros Hget. unfold encode_target. rewrite decide_True.
  - by rewrite getitem_update_col, decide_True, Hget.
  - split; [|by rewrite Hget].
    apply getitem_Some_elem in Hget. apply list_elem_of_fmap. by exists (t, SObject l).
Qed.

(** [SeniorCitizen] reaches its cast as it was after the label clean-up,
    unless it is the target and holds text. *)
Lemma senior_before_cast t df :
  t ≠ "SeniorCitizen"
  ∨ (∀ s, getitem df "SeniorCitizen" = Some s → is_object s = false) →
  getitem (coerce_total_charges (encode_target t df)) "SeniorCitizen"
  = getitem df "SeniorCitizen".
Proof.
  intros Hcase. rewrite getitem_coerce_total_charges_other by done.
  destruct Hcase as [Hne | Hno]; [by apply getitem_encode_target_other|].
  destruct (decide (t = "SeniorCitizen")) as [->|Hne];
    [|by apply getitem_encode_target_other].
  unfold encode_target. destruct (decide _) as [[_ Hobj]|]; [|done].
  destruct (getitem df "SeniorCitizen") as [s|]; [|done].
  simpl in Hobj. rewrite (Hno s eq_refl) in Hobj. discriminate.
Qed.
End preprocess_columns.

(** X12.  A text target is coded by its trimmed text: ["Yes"] is 1,
    ["No"] is 0, and any other cell (another text, a missing cell) ends as 0
    as well, since the numeric fill follows the mapping.  The column is
    [int64] when every cell is a Yes or a No, [float64] otherwise. *)
Theorem target_yes_no_encoding (df : DataFrame) (t : string) (l : list (option string)) :
  NoDup (columns (cleaned_labels df)) →
  getitem (cleaned_labels df) t = Some (SObject l) →
  t ≠ "TotalCharges" → t ≠ "SeniorCitizen" →
  (∀ s, getitem (cleaned_labels df) "SeniorCitizen" = Some s →
        is_Some (fillna0_astype_int s)) →
  ∃ d, preprocess_data df t = Some d
       ∧ getitem d t
         = Some (if decide (Forall (λ o, is_Some (yes_no_code o)) l)
                 then SInt ((λ o, default 0 (yes_no_code o)) <$> l)
                 else SFloat ((λ o, Some (Dec (default 0 (yes_no_code o)) 0)) <$> l)).
Proof.
  intros Hnd Hget Ht1 Ht2 Hsenior. rewrite preprocess_data_unfold.
  set (df0 := cleaned_labels df) in *.
  set (df2 := coerce_total_charges (encode_target t df0)).
  destruct (cast_senior_citizen_Some df2) as (d3 & Hcast & Hcols3 & _).
  { intros s Hs. apply Hsenior. unfold df2 in Hs.
    rewrite senior_before_cast in Hs; [done|by left]. }
  destruct (cast_senior_citizen_inv _ _ Hcast) as [_ Hother].
  rewrite Hcast. simpl. eexists. split; [done|].
  assert (getitem d3 t
          = Some (s_map (<["No" := 0]> (<["Yes" := 1]> ∅)) (str_strip (SObject l))))
    as Hget3.
  { rewrite Hother by done. unfold df2.
    rewrite getitem_coerce_total_charges_other by done.
    by apply getitem_encode_target. }
  assert (NoDup (columns d3)) as Hnd3.
  { rewrite Hcols3. unfold df2.
    by rewrite columns_coerce_total_charges, columns_encode_target. }
  rewrite s_map_yes_no in Hget3. destruct (decide _).
  - by rewrite (getitem_fill_numeric d3 t _ Hnd3 Hget3).
  - rewrite (getitem_fill_numeric d3 t _ Hnd3 Hget3) by done.
    simpl. do 2 f_equal. rewrite <- list_fmap_compose.
    apply list_fmap_ext. intros i o _. simpl. by destruct (yes_no_code o).
Qed.

Lemma target_yes_no_encoding_witness :
  ∃ d, preprocess_data padded_target "Churn" = Some d
       ∧ getitem d "Churn"
         = Some (if decide (Forall (λ o, is_Some (yes_no_code o))
                                   [Some ("Yes" +:+ nbsp); Some " No"])
                 then SInt ((λ o, default 0 (yes_no_code o))
                              <$> [Some ("Yes" +:+ nbsp); Some " No"])
                 else SFloat ((λ o, Some (Dec (default 0 (yes_no_code o)) 0))
                                <$> [Some ("Yes" +:+ nbsp); Some " No"])).
Proof.
  apply (target_yes_no_encoding padded_target "Churn").
  - apply (bool_decide_unpack _). vm_compute. exact I.
  - reflexivity.
  - discriminate.
  - discriminate.
  - intros s Hs. vm_compute in Hs. discriminate.
Defined.

(** The whitespace that [str.strip] removes is Unicode's: a label and a
    cell padded with a no-break space are trimmed like the others. *)
Example ex_padded_target :
  preprocess_data padded_target "Churn" = Some [("Churn", SInt [1; 0])].
Proof. vm_compute. reflexivity. Qed.

Example ex_unknown_target_label :
  preprocess_data [("Churn", SObject [Some " Yes"; Some "maybe"; None; Some "No"])]
                  "Churn"
  = Some [("Churn", SFloat [Some (Dec 1 0); Some (Dec 0 0); Some (Dec 0 0);
                            Some (Dec 0 0)])].
Proof. vm_compute. reflexivity. Qed.

(** X13.  [preprocess_data] leaves the text and [bool] features as they
    are, missing cells included: a column that is not numeric, and is not the
    target, [TotalCharges] or [SeniorCitizen], is found unchanged in the
    result. *)
Theorem preprocess_keeps_text_features
    (df d : DataFrame) (t c : string) (s : Series) :
  preprocess_data df t = Some d →
  NoDup (columns (cleaned_labels df)) →
  getitem (cleaned_labels df) c = Some s → is_number s = false →
  c ≠ t → c ≠ "TotalCharges" → c ≠ "SeniorCitizen" →
  getitem d c = Some s.
Proof.
  rewrite preprocess_data_unfold. intros Hd Hnd Hget Hnum Hct Hc1 Hc2.
  destruct (cast_senior_citizen _) as [d3|] eqn:Hcast; [|done].
  injection Hd as <-.
  destruct (cast_senior_citizen_inv _ _ Hcast) as [Hcols3 Hother].
  apply getitem_fill_numeric_text; [| |done].
  - by rewrite Hcols3, columns_coerce_total_charges, columns_encode_target.
  - rewrite Hother, getitem_coerce_total_charges_other by done.
    by rewrite getitem_encode_target_other.
Qed.

Lemma preprocess_keeps_text_features_witness :
  getitem [ ("Partner", SObject [Some "Yes"; None]); ("Churn", SInt [0; 1]) ]
          "Partner"
  = Some (SObject [Some "Yes"; None]).
Proof.
  apply (preprocess_keeps_text_features
           [ (" Partner", SObject [Some "Yes"; None]); ("Churn", SObject [Some "No"; Some "Yes"]) ]
           _ "Churn" "Partner").
  - vm_compute. reflexivity.
  - apply (bool_decide_unpack _). vm_compute. exact I.
  - reflexivity.
  - reflexivity.
  - discriminate.
  - discriminate.
  - discriminate.
Defined.

(** ** [preprocess_data] changes the caller's frame *)

Section preprocess_store.
Implicit Types (h : heap) (r : loc) (d : DataFrame).

Lemma df_alloc_run h d :
  df_alloc d h = Some (fresh (dom h), <[fresh (dom h) := d]> h).
Proof. done. Qed.

(** The drop loop: the frame it ends on holds the fold of the drops; it
    changes no frame of the store; it ends on the frame it started on when
    no listed label is present, and on a new frame otherwise. *)
Lemma drop_loop_run cols : ∀ h r d,
  h !! r = Some d →
  ∃ r' h',
    drop_loop cols r h = Some (r', h')
    ∧ h' !! r'
      = Some (foldl (λ d col, if decide (col ∈ columns d) then drop_column col d
                              else d) d cols)
    ∧ (∀ l, l ∈ dom h → h' !! l = h !! l)
    ∧ (Forall (λ col, col ∉ columns d) cols → r' = r)
    ∧ (Exists (λ col, col ∈ columns d) cols → r' ∉ dom h).
Proof.
  induction cols as [|col cols IH]; intros h r d Hr.
  { exists r, h. simpl. split; [done|]. split; [done|]. split; [done|].
    split; [done|]. by intros ?%Exists_nil. }
  simpl. rewrite (bind_run _ _ h d h (df_read_run _ _ _ Hr)).
  destruct (decide (col ∈ columns d)) as [Hin|Hout].
  - set (r1 := fresh (dom h)).
    assert (r1 ∉ dom h) as Hfresh by apply is_fresh.
    rewrite (bind_run _ _ h r1 (<[r1 := drop_column col d]> h)) by done.
    destruct (IH (<[r1 := drop_column col d]> h) r1 (drop_column col d))
      as (r' & h' & Hrun & Hres & Hold & Hsame & Hnew).
    { apply lookup_insert_eq. }
    exists r', h'. split; [done|]. split; [done|].
    assert (∀ l, l ∈ dom h → l ∈ dom (<[r1 := drop_column col d]> h)) as Hdom.
    { intros l Hl. apply elem_of_dom. apply elem_of_dom in Hl as [x Hx].
      destruct (decide (l = r1)) as [->|Hne].
      - rewrite lookup_insert_eq. by eexists.
      - rewrite lookup_insert_ne by done. by eexists. }
    split; [|split].
    + intros l Hl. rewrite (Hold l (Hdom l Hl)).
      rewrite lookup_insert_ne; [done|]. by intros <-.
    + intros [Hc _]%Forall_cons. done.
    + intros _.
      destruct (decide (Forall (λ c, c ∉ columns (drop_column col d)) cols))
        as [Hall|Hex].
      * by rewrite (Hsame Hall).
      * apply not_Forall_Exists in Hex; [|apply _].
        intros Hl. apply Hnew; [|by apply Hdom].
        eapply Exists_impl; [done|]. intros c Hc. simpl in Hc.
        by apply dec_stable.
  - rewrite (bind_run _ _ h r h) by done.
    destruct (IH h r d Hr) as (r' & h' & Hrun & Hres & Hold & Hsame & Hnew).
    exists r', h'. split; [done|]. split; [done|]. split; [done|]. split.
    + intros [_ Hall]%Forall_cons. by apply Hsame.
    + intros [Hc|Hex]%Exists_cons; [done|]. by apply Hnew.
Qed.

Lemma cond_modify_run (b : Prop) `{!Decision b} h r d (f : DataFrame → DataFrame) :
  h !! r = Some d →
  (if decide b then df_modify r f else mret ()) h
  = Some ((), <[r := if decide b then f d else d]> h).
Proof.
  intros Hr. destruct (decide b).
  - by apply df_modify_run.
  - unfold mret, St_ret. by rewrite insert_id.
Qed.
End preprocess_store.

(** X15.  [preprocess_data] works on the caller's frame.  Run on a store
    in which [r] holds [df], and when the function returns [d]: the returned
    reference holds [d]; no frame other than the caller's is changed; when
    none of the id labels is present the returned reference is [r] itself, so
    that the caller's frame has become the result; and when an id column is
    dropped the result is a new frame, while the caller's frame is left with
    its labels trimmed. *)
Theorem preprocess_data_changes_argument
    (h : heap) (r : loc) (df d : DataFrame) (t : string) :
  NoDup (columns (cleaned_labels df)) →
  h !! r = Some df → preprocess_data df t = Some d →
  ∃ r' h',
    preprocess_data_st r t h = Some (r', h')
    ∧ h' !! r' = Some d
    ∧ (∀ l, l ∈ dom h → l ≠ r → h' !! l = h !! l)
    ∧ (Forall (λ col, col ∉ columns (strip_columns df))
              ["customerID"; "CustomerID"; "customer_id"] → r' = r)
    ∧ (Exists (λ col, col ∈ columns (strip_columns df))
              ["customerID"; "CustomerID"; "customer_id"] →
       r' ≠ r ∧ h' !! r = Some (strip_columns df)).
Proof.
  intros _ Hr Hpure. unfold preprocess_data_st.
  set (h0 := <[r := strip_columns df]> h).
  rewrite (bind_run _ _ h () h0) by by apply df_modify_run.
  destruct (drop_loop_run ["customerID"; "CustomerID"; "customer_id"]
              h0 r (strip_columns df))
    as (r1 & h1 & Hloop & Hres & Hold & Hsame & Hnew).
  { apply lookup_insert_eq. }
  fold (drop_id_cols (strip_columns df)) in Hres.
  fold (cleaned_labels df) in Hres. set (df0 := cleaned_labels df) in *.
  rewrite (bind_run _ _ h0 r1 h1 Hloop).
  rewrite (bind_run _ _ h1 df0 h1) by by apply df_read_run.
  rewrite (bind_run _ _ h1 () _ (cond_modify_run _ h1 r1 df0 _ Hres)).
  fold (encode_target t df0). set (df1 := encode_target t df0).
  rewrite (bind_run _ _ _ df1 (<[r1 := df1]> h1))
    by (apply df_read_run, lookup_insert_eq).
  rewrite (bind_run _ _ _ () _
             (cond_modify_run _ _ r1 df1 _ (lookup_insert_eq _ _ _))).
  rewrite insert_insert_eq.
  fold (coerce_total_charges df1). set (df2 := coerce_total_charges df1).
  rewrite (bind_run _ _ _ df2 (<[r1 := df2]> h1))
    by (apply df_read_run, lookup_insert_eq).
  rewrite preprocess_data_unfold in Hpure. fold df0 df1 df2 in Hpure.
  destruct (cast_senior_citizen df2) as [df3|] eqn:Hcast; [|done].
  injection Hpure as <-.
  assert ((if decide ("SeniorCitizen" ∈ columns df2)
           then match getitem df2 "SeniorCitizen" ≫= fillna0_astype_int with
                | Some s' => df_modify r1 (update_col "SeniorCitizen" (λ _, s'))
                | None => raise
                end
           else mret ()) (<[r1 := df2]> h1)
          = Some ((), <[r1 := df3]> h1)) as Hstep.
  { unfold cast_senior_citizen in Hcast. destruct (decide _).
    - destruct (getitem df2 "SeniorCitizen") as [s|]; [|done]. simpl in *.
      destruct (fillna0_astype_int s) as [s'|]; [|done]. simpl in *.
      injection Hcast as <-.
      rewrite (df_modify_run _ r1 df2) by apply lookup_insert_eq.
      by rewrite insert_insert_eq.
    - by injection Hcast as <-. }
  rewrite (bind_run _ _ _ () _ Hstep).
  rewrite (bind_run _ _ _ df3 (<[r1 := df3]> h1))
    by (apply df_read_run, lookup_insert_eq).
  cbv zeta.
  rewrite (bind_run _ _ _ () (<[r1 := fill_numeric df3]> h1)).
  2:{ rewrite (df_modify_run _ r1 df3) by apply lookup_insert_eq.
      by rewrite insert_insert_eq. }
  exists r1, (<[r1 := fill_numeric df3]> h1).
  split; [done|]. split; [apply lookup_insert_eq|].
  assert (∀ l, l ∈ dom h → l ∈ dom h0) as Hdom.
  { intros l [x Hx]%elem_of_dom. apply elem_of_dom. unfold h0.
    destruct (decide (l = r)) as [->|Hne].
    - rewrite lookup_insert_eq. by eexists.
    - rewrite lookup_insert_ne by done. by eexists. }
  assert (r ∈ dom h) as Hrdom by (apply elem_of_dom; by eexists).
  assert (∀ l, l ∈ dom h → l ≠ r → l ≠ r1) as Hne1.
  { intros l Hl Hlr ->.
    destruct (decide (Forall (λ col, col ∉ columns (strip_columns df))
                             ["customerID"; "CustomerID"; "customer_id"]))
      as [Hall|Hex].
    - by apply Hlr, Hsame.
    - apply not_Forall_Exists in Hex; [|apply _].
      apply Hnew; [|by apply Hdom].
      eapply Exists_impl; [done|]. intros c Hc. simpl in Hc. by apply dec_stable. }
  split; [|split].
  - intros l Hl Hlr.
    rewrite lookup_insert_ne by (intros Heq; by apply (Hne1 l Hl Hlr)).
    rewrite (Hold l (Hdom l Hl)). unfold h0. by rewrite lookup_insert_ne.
  - done.
  - intros Hex. pose proof (Hnew Hex) as Hr1.
    assert (r1 ≠ r) as Hne.
    { intros ->. by apply Hr1, Hdom. }
    split; [done|]. rewrite lookup_insert_ne by done.
    rewrite (Hold r (Hdom r Hrdom)). apply lookup_insert_eq.
Qed.

Lemma preprocess_data_changes_argument_witness :
  ∃ r' h',
    preprocess_data_st 0%nat "Churn" {[ 0%nat := raw_sample ]} = Some (r', h')
    ∧ h' !! r' = Some preprocessed_sample
    ∧ (∀ l, l ∈ dom ({[ 0%nat := raw_sample ]} : heap) → l ≠ 0%nat →
         h' !! l = ({[ 0%nat := raw_sample ]} : heap) !! l)
    ∧ (Forall (λ col, col ∉ columns (strip_columns raw_sample))
              ["customerID"; "CustomerID"; "customer_id"] → r' = 0%nat)
    ∧ (Exists (λ col, col ∈ columns (strip_columns raw_sample))
              ["customerID"; "CustomerID"; "customer_id"] →
       r' ≠ 0%nat ∧ h' !! 0%nat = Some (strip_columns raw_sample)).
Proof.
  apply (preprocess_data_changes_argument
           {[ 0%nat := raw_sample ]} 0%nat raw_sample preprocessed_sample "Churn").
  - apply (bool_decide_unpack _). vm_compute. exact I.
  - reflexivity.
  - vm_compute. reflexivity.
Defined.

(** ** The encoder on columns that are not text *)

Lemma map_cell_not_text (mapping : gmap string Z) (s : Series) :
  is_object s = false →
  map_Int64 mapping s = SInt64 (replicate (nrows s) None).
Proof.
  intros Hs. unfold map_Int64, nrows. f_equal.
  assert (Forall (λ v, ∀ x, v ≠ VStr x) (cells s)) as Hcells.
  { destruct s as [l|l|l|l|l]; try done; simpl; apply Forall_fmap, Forall_forall;
      intros o _; simpl; by try destruct o. }
  induction Hcells as [|v vs Hv _ IH]; [done|]. simpl. f_equal; [|done].
  destruct v; try done. by destruct (Hv s0).
Qed.

(** X16.  The encoder erases a two-valued integer or boolean column: its
    dict has the values as texts, no integer or boolean cell is a key, and
    every cell comes out missing.  (This is what happens when the encoder is
    called again on its own result.) *)
Theorem encoder_erases_non_text (s : Series) :
  is_object s = false → is_float s = false → nunique s = 2%nat →
  _map_binary_series s = SInt64 (replicate (nrows s) None).
Proof.
  intros Hs _ Hcard. unfold _map_binary_series. cbv zeta.
  destruct (decide _); [by apply map_cell_not_text|].
  destruct (decide _); [by apply map_cell_not_text|].
  rewrite decide_True; [by apply map_cell_not_text|].
  by rewrite length_fmap.
Qed.

Lemma encoder_erases_non_text_witness :
  _map_binary_series (SInt64 [Some 1; Some 0; None; Some 1])
  = SInt64 (replicate (nrows (SInt64 [Some 1; Some 0; None; Some 1])) None).
Proof.
  apply (encoder_erases_non_text (SInt64 [Some 1; Some 0; None; Some 1])).
  - reflexivity.
  - reflexivity.
  - vm_compute. reflexivity.
Defined.

(** ** The target through preprocessing and the feature stage *)

Section target_path.
Implicit Types (df d : DataFrame) (t c : string) (s : Series).

Lemma getitem_bools_to_int df c s :
  getitem df c = Some s → getitem (bools_to_int df) c = Some (astype_int_bool s).
Proof.
  intros Hget.
  assert (bools_to_int df = (λ e, (e.1, astype_int_bool e.2)) <$> df) as ->.
  { unfold bools_to_int. rewrite update_each_map by apply astype_int_bool_idemp.
    apply list_fmap_ext. intros i [n s0] Hi. simpl.
    destruct (decide _) as [|Hn]; [done|]. f_equal.
    destruct (is_bool s0) eqn:Hb; [|by destruct s0].
    exfalso. apply Hn, elem_select_columns. exists s0. split; [|done].
    by apply list_elem_of_lookup_2 in Hi. }
  induction df as [|[n s0] df IH]; [done|]. simpl in *.
  destruct (decide (n = c)); [by injection Hget as ->|by apply IH].
Qed.

(** The feature stage on a target that is neither [bool] nor missing. *)
Lemma feature_stage_target df t s :
  NoDup (columns df) → getitem df t = Some s → is_bool s = false →
  ∃ df_enc written,
    feature_stage df t = Some (df_enc, written) ∧ getitem df_enc t = Some s.
Proof.
  intros Hnd Hget Hb.
  assert (t ∈ columns df) as Ht.
  { apply getitem_Some_elem in Hget. apply list_elem_of_fmap. by exists (t, s). }
  assert (getitem (build_features df t) t = Some s) as Hout.
  { rewrite (build_features_getitem df t t s Hnd Hget), Hb; [done|..].
    - intros Hc%binary_cols_obj%elem_obj_cols. by destruct Hc.
    - intros Hc%multi_cat_cols_obj%elem_obj_cols. by destruct Hc. }
  apply getitem_bools_to_int in Hout.
  assert (astype_int_bool s = s) as Hs by by destruct s.
  rewrite Hs in Hout.
  unfold feature_stage. rewrite decide_True by done. cbv zeta.
  unfold save_feature_metadata, drop_columns. rewrite decide_True.
  - simpl. by eexists _, _.
  - apply getitem_Some_elem in Hout. apply list_elem_of_fmap. by eexists (t, s).
Qed.

Lemma preprocess_columns df d t :
  preprocess_data df t = Some d → columns d = columns (cleaned_labels df).
Proof.
  rewrite preprocess_data_unfold. intros Hd.
  destruct (cast_senior_citizen _) as [d3|] eqn:Hcast; [|done].
  injection Hd as <-. destruct (cast_senior_citizen_inv _ _ Hcast) as [Hcols _].
  by rewrite columns_fill_numeric, Hcols, columns_coerce_total_charges,
             columns_encode_target.
Qed.
End target_path.

(** X17.  A text target named ["Churn"] whose cells are all Yes or No
    (up to surrounding whitespace) reaches the end of the feature stage as
    the [int64] column of its 0/1 codes: preprocessing maps it, feature
    engineering leaves it alone. *)
Theorem churn_target_reaches_training_as_codes
    (df : DataFrame) (l : list (option string)) :
  NoDup (columns (cleaned_labels df)) →
  getitem (cleaned_labels df) "Churn" = Some (SObject l) →
  Forall (λ o, is_Some (yes_no_code o)) l →
  (∀ s, getitem (cleaned_labels df) "SeniorCitizen" = Some s →
        is_Some (fillna0_astype_int s)) →
  ∃ df_enc written,
    preprocess_and_features df "Churn" = Some (df_enc, written)
    ∧ getitem df_enc "Churn" = Some (SInt ((λ o, default 0 (yes_no_code o)) <$> l)).
Proof.
  intros Hnd Hget Hall Hsenior. unfold preprocess_and_features.
  rewrite preprocess_data_unfold.
  set (df0 := cleaned_labels df) in *.
  set (df2 := coerce_total_charges (encode_target "Churn" df0)).
  destruct (cast_senior_citizen_Some df2) as (d3 & Hcast & Hcols3 & _).
  { intros s Hs. apply Hsenior. unfold df2 in Hs.
    rewrite senior_before_cast in Hs; [done|by left]. }
  destruct (cast_senior_citizen_inv _ _ Hcast) as [_ Hother].
  rewrite Hcast. simpl.
  assert (NoDup (columns d3)) as Hnd3.
  { rewrite Hcols3. unfold df2.
    by rewrite columns_coerce_total_charges, columns_encode_target. }
  assert (getitem d3 "Churn"
          = Some (SInt ((λ o, default 0 (yes_no_code o)) <$> l))) as Hget3.
  { rewrite Hother by done. unfold df2.
    rewrite getitem_coerce_total_charges_other by done.
    rewrite (getitem_encode_target _ _ l Hget), s_map_yes_no.
    by rewrite decide_True. }
  apply feature_stage_target; [by rewrite columns_fill_numeric| |done].
  by rewrite (getitem_fill_numeric d3 "Churn" _ Hnd3 Hget3).
Qed.

Lemma churn_target_reaches_training_as_codes_witness :
  ∃ df_enc written,
    preprocess_and_features raw_sample "Churn" = Some (df_enc, written)
    ∧ getitem df_enc "Churn"
      = Some (SInt ((λ o, default 0 (yes_no_code o))
                      <$> [Some "No"; Some "Yes"; Some "No"])).
Proof.
  apply (churn_target_reaches_training_as_codes raw_sample).
  - apply (bool_decide_unpack _). vm_compute. exact I.
  - reflexivity.
  - repeat constructor; by eexists.
  - intros s Hs. vm_compute in Hs. injection Hs as <-. vm_compute. eauto.
Defined.

(** X18.  Only a target named ["Churn"] is mapped: the script calls
    [preprocess_data] with its default target.  A text target with any other
    name goes through preprocessing and the feature stage unchanged, and
    reaches training as text. *)
Theorem other_target_stays_text
    (df d : DataFrame) (t : string) (l : list (option string)) :
  preprocess_data df "Churn" = Some d →
  NoDup (columns (cleaned_labels df)) →
  getitem (cleaned_labels df) t = Some (SObject l) →
  t ≠ "Churn" → t ≠ "TotalCharges" → t ≠ "SeniorCitizen" →
  ∃ df_enc written,
    preprocess_and_features df t = Some (df_enc, written)
    ∧ getitem df_enc t = Some (SObject l).
Proof.
  intros Hd Hnd Hget Ht0 Ht1 Ht2. unfold preprocess_and_features.
  rewrite Hd. simpl.
  pose proof (preprocess_columns _ _ _ Hd) as Hcols.
  apply feature_stage_target; [by rewrite Hcols| |done].
  rewrite preprocess_data_unfold in Hd.
  destruct (cast_senior_citizen _) as [d3|] eqn:Hcast; [|done].
  injection Hd as <-.
  destruct (cast_senior_citizen_inv _ _ Hcast) as [Hcols3 Hother].
  apply getitem_fill_numeric_text; [| |done].
  - by rewrite Hcols3, columns_coerce_total_charges, columns_encode_target.
  - rewrite Hother, getitem_coerce_total_charges_other by done.
    by rewrite getitem_encode_target_other.
Qed.

Lemma other_target_stays_text_witness :
  ∃ df_enc written,
    preprocess_and_features
      [ ("tenure", SInt [1; 34]); ("Exited", SObject [Some "Yes"; Some "No"]) ]
      "Exited"
    = Some (df_enc, written)
    ∧ getitem df_enc "Exited" = Some (SObject [Some "Yes"; Some "No"]).
Proof.
  apply (other_target_stays_text
           [ ("tenure", SInt [1; 34]); ("Exited", SObject [Some "Yes"; Some "No"]) ]
           [ ("tenure", SInt [1; 34]); ("Exited", SObject [Some "Yes"; Some "No"]) ]).
  - vm_compute. reflexivity.
  - apply (bool_decide_unpack _). vm_compute. exact I.
  - reflexivity.
  - discriminate.
  - discriminate.
  - discriminate.
Defined.

(** ** Binary features, with and without missing cells *)

(** X19.  A text feature without missing cell whose values are two texts
    [a < b] comes out of [build_features] as the nullable-integer column in
    which [b] is 1 and [a] is 0. *)
Theorem complete_binary_feature_encoded
    (df : DataFrame) (t c : string) (l : list (option string)) (a b : string) :
  NoDup (columns df) → getitem df c = Some (SObject l) → c ≠ t →
  Forall is_Some l → value_set l = {[a; b]} → String.ltb a b = true →
  getitem (build_features df t) c = Some (SInt64 (code01 b <$> l)).
Proof.
  intros Hnd Hget Hct Hall Hset Hlt.
  pose proof (ltb_leb _ _ Hlt) as (_ & _ & Hab).
  assert (c ∈ binary_cols df t) as Hc.
  { unfold binary_cols. apply list_elem_of_filter. split.
    - unfold card. rewrite Hget. simpl. rewrite nunique_object.
      by destruct (value_set_two_vals l a b Hset Hab) as [-> | ->].
    - by apply (obj_cols_intro df t c (SObject l)). }
  rewrite (binary_column_encoded df t c _ Hnd Hc Hget), astype_str_object.
  assert ((λ o : option string, Some (default "nan" o)) <$> l = l) as ->.
  { etrans; [|apply list_fmap_id]. apply Forall_fmap_ext.
    eapply Forall_impl; [done|]. by intros o [x ->]. }
  rewrite (tier_any l a b Hset Hlt).
  unfold clean_col. simpl. do 2 f_equal. rewrite <- list_fmap_compose.
  apply Forall_fmap_ext. eapply Forall_impl; [done|]. by intros o [x ->].
Qed.

Lemma complete_binary_feature_encoded_witness :
  getitem (build_features telco_sample "Churn") "gender"
  = Some (SInt64 (code01 "Male"
                    <$> [Some "Female"; Some "Male"; Some "Female"; Some "Male"])).
Proof.
  apply (complete_binary_feature_encoded telco_sample "Churn" "gender" _ "Female" "Male").
  - apply (bool_decide_unpack _). vm_compute. exact I.
  - reflexivity.
  - discriminate.
  - repeat constructor; by eexists.
  - vm_compute. reflexivity.
  - vm_compute. reflexivity.
Defined.

(** X20.  A two-valued text feature with a missing cell, none of whose
    texts is ["nan"], is neither encoded nor expanded: it is not listed as
    multi-category, and [build_features] returns it as text, with ["nan"] in
    place of the missing cells. *)
Theorem missing_cell_blocks_encoding
    (df : DataFrame) (t c : string) (l : list (option string)) :
  NoDup (columns df) → c ∈ binary_cols df t → getitem df c = Some (SObject l) →
  None ∈ l → Some "nan" ∉ l →
  (c ∉ multi_cat_cols df t)
  ∧ getitem (build_features df t) c
    = Some (SObject ((λ o, Some (default "nan" o)) <$> l)).
Proof. apply binary_column_with_missing. Qed.

Lemma missing_cell_blocks_encoding_witness :
  ("Partner" ∉ multi_cat_cols telco_sample "Churn")
  ∧ getitem (build_features telco_sample "Churn") "Partner"
    = Some (SObject ((λ o, Some (default "nan" o))
                       <$> [Some "Yes"; Some "No"; None; Some "No"])).
Proof.
  apply (missing_cell_blocks_encoding telco_sample "Churn" "Partner").
  - apply (bool_decide_unpack _). vm_compute. exact I.
  - apply (bool_decide_unpack _). vm_compute. exact I.
  - reflexivity.
  - apply (bool_decide_unpack _). vm_compute. exact I.
  - apply (bool_decide_unpack _). vm_compute. exact I.
Defined.
